(** * langchain-langgraph-agents: the orchestration core in Rocq

    A shallow embedding of the Python sources

      - [src/core/constants.py], [src/core/settings.py], [src/core/context.py]
      - [src/core/middleware.py]  (logging, retry, tool-error stages, the stack)
      - [src/agent/graph.py]      ([route_to_node])
      - [src/tools/tools.py]      ([calculate])
      - [main.py]                 ([/invoke] and [/stream])

    Conventions.
      - A Python call that may raise is a computation returning an
        [Outcome]: [Return v] or [Raise e].  The exceptions of the model
        are the instances of Python's [Exception], which is what every
        [except Exception] clause of the sources catches.
      - Effects (calling the wrapped handler, [time.sleep], [logger.*],
        [uuid.uuid4], running the graph) are threaded through a [World]:
        the state of the collaborator being called and the trace of the
        effects performed so far, oldest first.
      - Python [dict]s of unknown shape ([request.tool_call], a message
        given as a dict) are [gmap string _]; the [TypedDict] [State] is a
        record whose fields are optional, [None] standing for a missing key.
      - The delays of the retry stage are Python floats.  They are integers
        here (1.0, 2.0, 4.0, 8.0, 10.0), so they are modelled exactly in
        [Q]; the one place where float range matters (converting [2**attempt]
        to a float) is written out. *)

From Stdlib Require Import ZArith QArith Qminmax String Ascii List Lia.
From stdpp Require Import base gmap strings list pretty.

Local Open Scope string_scope.
Local Open Scope list_scope.

(* ===================================================================== *)
(** ** Python values, exceptions, outcomes                               *)
(* ===================================================================== *)

Module Py.

(** An instance of [Exception]: its class name and [str(e)]. *)
Record Exception : Type := mkException {
  exc_class : string;
  exc_str : string
}.

(** The result of evaluating a Python call: a value or a raised error. *)
Inductive Outcome (E A : Type) : Type :=
| Return (a : A)
| Raise (e : E).
Global Arguments Return {E A} a.
Global Arguments Raise {E A} e.

Definition is_return {E A} (o : Outcome E A) : bool :=
  match o with Return _ => true | Raise _ => false end.

(** The values of the dictionaries the sources index (a [ToolCall] has a
    string ["name"], a dict ["args"] and an ["id"] that is a string or
    [None]): strings, [None], and nested dicts, kept by their [repr]. *)
Inductive pyval : Type :=
| PStr (s : string)
| PNone
| PDict (repr : string).

(** [raise None]: Python refuses to raise a non-exception. *)
Definition TypeError_raise_None : Exception :=
  mkException "TypeError" "exceptions must derive from BaseException".

(** [float * int] first converts the [int]; CPython's [PyLong_AsDouble]
    raises once the integer no longer fits a double. *)
Definition OverflowError_int_to_float : Exception :=
  mkException "OverflowError" "int too large to convert to float".

Definition KeyError (key : string) : Exception :=
  mkException "KeyError" ("'" +:+ key +:+ "'").

(** Largest binary exponent of a finite double is 1023. *)
Definition DBL_MAX_EXP : nat := 1024.

(** [float(2**k)]: exact up to [2**1023], an [OverflowError] from
    [2**1024] on. *)
Definition float_of_pow2 (k : nat) : Outcome Exception Q :=
  if (k <? DBL_MAX_EXP)%nat
  then Return (inject_Z (2 ^ Z.of_nat k))
  else Raise OverflowError_int_to_float.

(** [range(n)] for an [int] [n]: empty when [n <= 0]. *)
Definition range (n : Z) : list nat := seq 0 (Z.to_nat n).

End Py.
Export Py.

(* ===================================================================== *)
(** ** Messages and requests (langchain types the sources touch)         *)
(* ===================================================================== *)

Module Schema.

(** A message as the sources see one: either an object with a [content]
    attribute (HumanMessage, AIMessage, ToolMessage, ...) or a plain
    [dict]. *)
Inductive Message : Type :=
| MessageObj (type : string) (content : string)
| MessageDict (d : gmap string string).

(** [src/agent/state.py]: [Output]. *)
Record Output : Type := mkOutput {
  answer : string;
  confidence : Q;
  sources : list string
}.

(** [src/agent/state.py]: [class State(AgentState)], a [TypedDict] with the
    keys ["messages"], ["node"] and (from [AgentState])
    ["structured_response"]; [None] is a missing key. *)
Record State : Type := mkState {
  messages : option (list Message);
  node : option string;
  structured_response : option Output
}.

(** [ModelRequest]: what the model-call stages read is [request.state];
    the rest of the request is carried along untouched. *)
Record ModelRequest : Type := mkModelRequest {
  request_state : State;
  request_system_prompt : option string;
  request_model : string
}.

(** [ToolCallRequest]: [request.tool_call] is a dict with the keys
    ["name"], ["args"], ["id"]. *)
Record ToolCallRequest : Type := mkToolCallRequest {
  tool_call : gmap string pyval
}.

(** [langchain.messages.ToolMessage(content=..., tool_call_id=...)]. *)
Record ToolMessage : Type := mkToolMessage {
  tm_content : string;
  tm_tool_call_id : string
}.

(** [langgraph.types.Command(update={"messages": [...]})]. *)
Record Command : Type := mkCommand {
  update_messages : list Message
}.

(** What a tool-call handler hands back. *)
Inductive ToolResult : Type :=
| ResultMessage (m : ToolMessage)
| ResultCommand (c : Command).

(** [src/core/context.py]: [RequestContext]. *)
Record RequestContext : Type := mkRequestContext {
  user_id : string;
  session_id : string;
  user_role : string;
  metadata : gmap string pyval
}.

Definition RequestContext_new (user_id session_id : string) : RequestContext :=
  {| user_id := user_id; session_id := session_id;
     user_role := "user"; metadata := ∅ |}.

End Schema.
Export Schema.

(* ===================================================================== *)
(** ** Effects                                                           *)
(* ===================================================================== *)

Inductive LogLevel : Type := DEBUG | INFO | WARNING | ERROR.

(** The records the sources hand to [logger]; the f-string of each is in
    the comment. *)
Inductive LogRecord : Type :=
| LLMRequestLog (last_msg : Message)
    (* f"[LLM Request] {content[:100]}...", [content] being
       [last_msg.content] or [str(last_msg)] *)
| LLMResponseLog
    (* f"[LLM Response] {elapsed:.2f}s"; the wall-clock reading is not
       modelled *)
| RetryAttemptLog (attempt_no : nat) (e : Exception) (delay : Q)
    (* f"[Retry] Attempt {attempt + 1} failed: {e}. Retrying in {delay}s..." *)
| RetryExhaustedLog (max_retries : Z)
    (* f"[Retry] All {settings.MAX_RETRIES} attempts failed" *)
| TextLog (text : string).

(** The graph's input: [{"messages": [{"role": "user", "content": m}],
    "node": n}], with the config's thread id and the context. *)
Record GraphCall : Type := mkGraphCall {
  gc_message : string;
  gc_node : string;
  gc_thread_id : string;
  gc_context : RequestContext
}.

Inductive Event : Type :=
| ModelCall (request : ModelRequest)      (* handler(request), model stage *)
| ToolCall (request : ToolCallRequest)    (* handler(request), tool stage *)
| Sleep (seconds : Q)                     (* time.sleep(seconds) *)
| Log (level : LogLevel) (record : LogRecord)
| Uuid4 (value : string)                  (* str(uuid.uuid4()) *)
| GraphInvoke (call : GraphCall)          (* graph.ainvoke(...) *)
| GraphStream (call : GraphCall).         (* graph.astream_events(...) *)

(** The world a piece of code runs in: [ext] is the state of the
    collaborator it calls, [trace] the effects performed so far. *)
Record World (S : Type) : Type := mkWorld {
  ext : S;
  trace : list Event
}.
Arguments mkWorld {S} ext trace.
Arguments ext {S} w.
Arguments trace {S} w.

(** Computations that may raise [E] and act on the world. *)
Definition M (S E A : Type) : Type := World S → Outcome E A * World S.

Section Monad.
Context {S E : Type}.

Definition ret {A} (a : A) : M S E A := λ w, (Return a, w).

Definition raise {A} (e : E) : M S E A := λ w, (Raise e, w).

Definition bind {A B} (c : M S E A) (k : A → M S E B) : M S E B :=
  λ w, match c w with
       | (Return a, w') => k a w'
       | (Raise e, w') => (Raise e, w')
       end.

(** [try: c  except Exception as e: ...]: the outcome of [c] is handed
    to the code that follows, which never sees a raise from [c]. *)
Definition try {A E'} (c : M S E A) : M S E' (Outcome E A) :=
  λ w, let '(o, w') := c w in (Return o, w').

(** Append one effect to the trace. *)
Definition emit (ev : Event) : M S E unit :=
  λ w, (Return tt, mkWorld (ext w) (trace w ++ [ev])).

(** Run a collaborator on its own state, recording the call. *)
Definition external {A} (ev : Event) (f : S → Outcome E A * S) : M S E A :=
  λ w, let '(o, s') := f (ext w) in (o, mkWorld s' (trace w ++ [ev])).

(** Lift a pure fallible computation. *)
Definition lift {A} (o : Outcome E A) : M S E A := λ w, (o, w).

End Monad.

#[global] Instance M_ret {S E} : MRet (M S E) := λ A, @ret S E A.
#[global] Instance M_bind {S E} : MBind (M S E) := λ A B k c, @bind S E A B c k.

Definition logger {S E} (level : LogLevel) (record : LogRecord) : M S E unit :=
  emit (Log level record).

Definition time_sleep {S E} (seconds : Q) : M S E unit :=
  emit (Sleep seconds).

(** Projections of a trace. *)
Definition model_calls (tr : list Event) : list ModelRequest :=
  omap (λ ev, match ev with ModelCall r => Some r | _ => None end) tr.


Definition sleeps (tr : list Event) : list Q :=
  omap (λ ev, match ev with Sleep d => Some d | _ => None end) tr.

Definition uuids (tr : list Event) : list string :=
  omap (λ ev, match ev with Uuid4 u => Some u | _ => None end) tr.

Definition graph_calls (tr : list Event) : list GraphCall :=
  omap (λ ev, match ev with
              | GraphInvoke c | GraphStream c => Some c
              | _ => None
              end) tr.

(* ===================================================================== *)
(** ** src/core/constants.py and src/core/settings.py                    *)
(* ===================================================================== *)

Module Constants.

Definition NODES : list string := ["assistant"].

Record ModelConfig : Type := mkModelConfig {
  gpt_5_2 : string;
  gpt_5_mini : string;
  o4_mini : string;
  o3 : string
}.

Definition models : ModelConfig :=
  {| gpt_5_2 := "gpt-5.2"; gpt_5_mini := "gpt-5-mini";
     o4_mini := "o4-mini"; o3 := "o3" |}.

Record MiddlewareConfig : Type := mkMiddlewareConfig {
  max_retries : Z;
  retry_base_delay : Q;
  max_retry_delay : Q
}.

Definition middleware_config : MiddlewareConfig :=
  {| max_retries := 3; retry_base_delay := 1; max_retry_delay := 10 |}.

End Constants.

Module Settings.

Inductive Env : Type := LOCAL | DEV | PROD.

(** [class Settings(BaseSettings)], the fields the core reads. *)
Record t : Type := mkSettings {
  ENV : Env;
  ENABLE_RETRY : bool;
  ENABLE_LOGGING : bool;
  ENABLE_SUMMARIZATION : bool;
  MAX_RETRIES : Z
}.

(** The field defaults, i.e. [Settings()] in an environment that sets
    none of them. *)
Definition defaults : t :=
  {| ENV := LOCAL;
     ENABLE_RETRY := false;
     ENABLE_LOGGING := false;
     ENABLE_SUMMARIZATION := true;
     MAX_RETRIES := 3 |}.

End Settings.

(* ===================================================================== *)
(** ** src/core/middleware.py                                            *)
(* ===================================================================== *)

Module Middleware.
Import Constants.

(** A wrapped model-call handler: a stateful, fallible function of the
    request.  [S] is the handler's own state (the model service as seen
    through successive calls), [Response] is [ModelResponse]. *)
Definition ModelHandler (S Response : Type) : Type :=
  ModelRequest → S → Outcome Exception Response * S.

Definition ToolHandler (S : Type) : Type :=
  ToolCallRequest → S → Outcome Exception ToolResult * S.

(** [handler(request)] *)
Definition call_model {S Response} (handler : ModelHandler S Response)
    (request : ModelRequest) : M S Exception Response :=
  external (ModelCall request) (handler request).

Definition call_tool {S} (handler : ToolHandler S)
    (request : ToolCallRequest) : M S Exception ToolResult :=
  external (ToolCall request) (handler request).

(** *** Logging middleware *)

(** The truthiness test [if request.state.get("messages")] followed by
    [request.state["messages"][-1]]: the last message of a present,
    non-empty list. *)
Definition last_message (state : State) : option Message :=
  match messages state with
  | Some ms => last ms
  | None => None
  end.

Definition logging_middleware {S Response} (request : ModelRequest)
    (handler : ModelHandler S Response) : M S Exception Response :=
  (* start = time.time() *)
  match last_message (request_state request) with
  | Some last_msg => logger INFO (LLMRequestLog last_msg)
  | None => mret tt
  end ;;
  response ← call_model handler request ;
  (* elapsed = time.time() - start *)
  logger INFO LLMResponseLog ;;
  mret response.

(** *** Retry middleware *)

(** [min(middleware_config.retry_base_delay * (2**attempt),
         middleware_config.max_retry_delay)]: the integer [2**attempt] is
    converted to a float for the product, which is exact for the base
    delay 1.0. *)
Definition retry_delay (attempt : nat) : Outcome Exception Q :=
  match float_of_pow2 attempt with
  | Return p =>
      Return (Qmin (retry_base_delay middleware_config * p)
                   (max_retry_delay middleware_config))
  | Raise e => Raise e
  end.

(** The body of [for attempt in range(settings.MAX_RETRIES)] and the two
    statements after the loop; [last_error] is the loop-carried variable. *)
Fixpoint retry_loop {S Response} (settings : Settings.t)
    (attempts : list nat) (last_error : option Exception)
    (request : ModelRequest) (handler : ModelHandler S Response)
    : M S Exception Response :=
  match attempts with
  | attempt :: rest =>
      r ← try (call_model handler request) ;
      match r with
      | Return response => mret response
      | Raise e =>
          delay ← lift (retry_delay attempt) ;
          logger WARNING (RetryAttemptLog (attempt + 1) e delay) ;;
          time_sleep delay ;;
          retry_loop settings rest (Some e) request handler
      end
  | [] =>
      logger ERROR (RetryExhaustedLog (Settings.MAX_RETRIES settings)) ;;
      match last_error with
      | Some e => raise e
      | None => raise TypeError_raise_None
      end
  end.

Definition retry_middleware {S Response} (settings : Settings.t)
    (request : ModelRequest) (handler : ModelHandler S Response)
    : M S Exception Response :=
  retry_loop settings (range (Settings.MAX_RETRIES settings)) None
             request handler.

(** *** Tool error handling middleware *)

(** How an f-string renders a dictionary value. *)
Definition format_value (v : pyval) : string :=
  match v with
  | PStr s => s
  | PNone => "None"
  | PDict repr => repr
  end.

(** [ToolMessage] declares [tool_call_id: str]; pydantic refuses [None]
    or a dict there with a [ValidationError].  For this one exception
    [exc_str] is the message of the error pydantic reports
    ([e.errors()[0]["msg"]]); [str(e)] wraps that message in a report that
    also names the model, the input and the pydantic version. *)
Definition ValidationError_tool_call_id : Exception :=
  mkException "ValidationError" "Input should be a valid string".

Definition _error_message {S} (request : ToolCallRequest) (e : Exception)
    : M S Exception ToolMessage :=
  let tool_name :=
    match tool_call request !! "name" with
    | Some v => format_value v
    | None => "unknown"
    end in
  let error_msg :=
    "Tool error in '" +:+ tool_name +:+ "': " +:+ exc_str e
      +:+ ". Please check your input and try again." in
  logger ERROR (TextLog error_msg) ;;
  match tool_call request !! "id" with
  | Some (PStr id) => mret (mkToolMessage error_msg id)
  | Some _ => raise ValidationError_tool_call_id
  | None => raise (KeyError "id")
  end.

Definition _handle {S} (request : ToolCallRequest) (handler : ToolHandler S)
    : M S Exception ToolResult :=
  r ← try (call_tool handler request) ;
  match r with
  | Return result => mret result
  | Raise e => m ← _error_message request e ; mret (ResultMessage m)
  end.

(** The coroutine [_ahandle] awaits the handler and is otherwise the same
    code. *)
Definition _ahandle {S} (request : ToolCallRequest) (handler : ToolHandler S)
    : M S Exception ToolResult :=
  r ← try (call_tool handler request) ;
  match r with
  | Return result => mret result
  | Raise e => m ← _error_message request e ; mret (ResultMessage m)
  end.

Definition wrap_tool_call {S} (request : ToolCallRequest)
    (handler : ToolHandler S) : M S Exception ToolResult :=
  _handle request handler.

Definition awrap_tool_call {S} (request : ToolCallRequest)
    (handler : ToolHandler S) : M S Exception ToolResult :=
  _ahandle request handler.

(** *** Default middleware stack *)

(** The stages [build_middleware] can put on the stack. *)
Inductive Stage : Type :=
| SummarizationMiddleware (model : string)
    (trigger : string * Z) (keep : string * Z)
| logging_stage       (* the object [logging_middleware] *)
| retry_stage         (* the object [retry_middleware] *)
| tool_error_stage.   (* the instance [tool_error_middleware] *)

Definition build_middleware (settings : Settings.t) : list Stage :=
  let middleware := [] in
  let middleware :=
    if Settings.ENABLE_SUMMARIZATION settings
    then middleware ++
         [SummarizationMiddleware (gpt_5_mini models) ("tokens", 8000%Z)
                                  ("messages", 10%Z)]
    else middleware in
  let middleware :=
    if Settings.ENABLE_LOGGING settings
    then middleware ++ [logging_stage] else middleware in
  let middleware :=
    if Settings.ENABLE_RETRY settings
    then middleware ++ [retry_stage] else middleware in
  middleware ++ [tool_error_stage].

(** Built at import time from the settings then in force. *)
Definition DEFAULT_MIDDLEWARE (settings : Settings.t) : list Stage :=
  build_middleware settings.

End Middleware.

(* ===================================================================== *)
(** ** src/agent/graph.py                                                *)
(* ===================================================================== *)

Module Graph.

(** [state.get("node", "assistant")] *)
Definition route_to_node (state : State) : string :=
  default "assistant" (node state).

End Graph.

(* ===================================================================== *)
(** ** src/tools/tools.py                                                *)
(* ===================================================================== *)

Module Tools.

(** Python's builtins [eval] and [str], which [calculate] calls on the
    expression and on its value; [V] is the type of Python values. *)
Record Builtins (V : Type) : Type := mkBuiltins {
  py_eval : string → Outcome Exception V;
  py_str : V → Outcome Exception string
}.
Arguments py_eval {V} _ _.
Arguments py_str {V} _ _.

(** [set("0123456789+-*/.(). ")] *)
Definition allowed : list ascii :=
  list_ascii_of_string "0123456789+-*/.(). ".

(** [all(c in allowed for c in expression)] *)
Definition all_allowed (expression : string) : bool :=
  forallb (λ c, bool_decide (c ∈ allowed)) (list_ascii_of_string expression).

(** [try: body  except Exception as e: handler e], without effects. *)
Definition try_except {A} (body : Outcome Exception A)
    (handler : Exception → Outcome Exception A) : Outcome Exception A :=
  match body with
  | Return a => Return a
  | Raise e => handler e
  end.

Definition calculate {V} (py : Builtins V) (expression : string)
    : Outcome Exception string :=
  try_except
    (if negb (all_allowed expression)
     then Return "Error: Invalid characters"
     else match py_eval py expression with
          | Return v => py_str py v
          | Raise e => Raise e
          end)
    (λ e, Return ("Error: " +:+ exc_str e)).

(** The names of [TOOLS]. *)
Definition TOOLS : list string :=
  ["get_current_time"; "calculate"; "get_user_info"; "save_preference"].

End Tools.

(* ===================================================================== *)
(** ** src/agent/agents.py                                               *)
(* ===================================================================== *)

Module Agents.
Import Constants.

(** The arguments [assistant] passes to [create_agent]. *)
Record AgentSpec : Type := mkAgentSpec {
  model : string;
  tools : list string;
  system_prompt : string;
  middleware : list Middleware.Stage
}.

(** [Agents.assistant]; [prompt] is what [load_prompt("assistant")]
    reads from disk, [settings] the settings the module was imported
    under. *)
Definition assistant (settings : Settings.t) (prompt : string) : AgentSpec :=
  {| model := gpt_5_mini models;
     tools := Tools.TOOLS;
     system_prompt := prompt;
     middleware := Middleware.DEFAULT_MIDDLEWARE settings |}.

End Agents.

(* ===================================================================== *)
(** ** main.py                                                           *)
(* ===================================================================== *)

Module InvokeRequest.
Record t : Type := mk {
  message : string;
  node : string;                 (* default "assistant" *)
  thread_id : option string;     (* default None *)
  user_id : option string        (* default None *)
}.
End InvokeRequest.

Module InvokeResponse.
Record t : Type := mk {
  thread_id : string;
  node : string;
  response : string;
  structured_response : option Output
}.
End InvokeResponse.

Module Main.
Import Constants.

(** [fastapi.HTTPException(status_code, detail)] *)
Record HTTPException : Type := mkHTTPException {
  status_code : Z;
  detail : string
}.

(** One item of [graph.astream_events]: [event.get("event")] and
    [event.get("data", {}).get("chunk")]. *)
Inductive Chunk : Type :=
| ChunkObj (content : string)    (* an object with a [content] attribute *)
| ChunkOther.                    (* a truthy object without one *)

Record StreamEvent : Type := mkStreamEvent {
  ev_event : option string;
  ev_chunk : option Chunk
}.

(** The collaborators of the endpoints, each acting on the state [G] of
    the outside world (the compiled graph with its checkpointer, the
    random source):
      - [uuid4] is [str(uuid.uuid4())];
      - [graph_ainvoke] is [graph.ainvoke], returning the final state;
      - [graph_astream_events] is [graph.astream_events] consumed to its
        end: the events it yields and the exception, if any, that ends
        it. *)
Record Services (G : Type) : Type := mkServices {
  uuid4 : G → string * G;
  graph_ainvoke : GraphCall → G → Outcome Exception State * G;
  graph_astream_events :
    GraphCall → G → (list StreamEvent * option Exception) * G
}.
Arguments uuid4 {G} _ _.
Arguments graph_ainvoke {G} _ _ _.
Arguments graph_astream_events {G} _ _ _.

(** [repr] of a string without quotes, backslashes or control characters
    (node names are method names of [Nodes]), and of a list of them. *)
Definition repr_str (s : string) : string := "'" +:+ s +:+ "'".

Definition repr_list (l : list string) : string :=
  "[" +:+ String.concat ", " (map repr_str l) +:+ "]".

(** [x or y] on an optional string: [None] and [""] are falsy. *)
Definition truthy (x : option string) : option string :=
  match x with
  | Some s => if bool_decide (s = "") then None else Some s
  | None => None
  end.

(** [request.thread_id or str(uuid.uuid4())] *)
Definition thread_id_or_new {G E} (svc : Services G)
    (request : InvokeRequest.t) : M G E string :=
  match truthy (InvokeRequest.thread_id request) with
  | Some t => mret t
  | None =>
      λ w, let '(u, g') := uuid4 svc (ext w) in
           (Return u, mkWorld g' (trace w ++ [Uuid4 u]))
  end.

(** [RequestContext(user_id=request.user_id or "", session_id=thread_id)] *)
Definition make_context (request : InvokeRequest.t) (thread_id : string)
    : RequestContext :=
  RequestContext_new (default "" (truthy (InvokeRequest.user_id request)))
                     thread_id.

Definition make_call (request : InvokeRequest.t) (thread_id : string)
    : GraphCall :=
  {| gc_message := InvokeRequest.message request;
     gc_node := InvokeRequest.node request;
     gc_thread_id := thread_id;
     gc_context := make_context request thread_id |}.

(** The response text: the content of the last message of
    [result.get("messages", [])], or [""]. *)
Definition response_text (result : State) : string :=
  match last (default [] (messages result)) with
  | Some (MessageObj _ content) => content
  | Some (MessageDict d) => default "" (d !! "content")
  | None => ""
  end.

Definition invoke {G} (svc : Services G) (request : InvokeRequest.t)
    : M G HTTPException InvokeResponse.t :=
  if negb (bool_decide (InvokeRequest.node request ∈ NODES))
  then raise (mkHTTPException 400
                ("Unknown node: " +:+ InvokeRequest.node request
                 +:+ ". Available: " +:+ repr_list NODES))
  else
    thread_id ← thread_id_or_new svc request ;
    r ← try (result ← external (GraphInvoke (make_call request thread_id))
                         (graph_ainvoke svc (make_call request thread_id)) ;
             mret (InvokeResponse.mk thread_id
                     (InvokeRequest.node request)
                     (response_text result)
                     (Schema.structured_response result))) ;
    match r with
    | Return response => mret response
    | Raise e =>
        logger ERROR (TextLog ("Invoke error: " +:+ exc_str e)) ;;
        raise (mkHTTPException 500 (exc_str e))
    end.

(** A line feed; two of them end an SSE event. *)
Definition LF : string := String "010"%char EmptyString.

(** The line yielded for one event of the graph, if any. *)
Definition sse_token (event : StreamEvent) : option string :=
  if bool_decide (ev_event event = Some "on_chat_model_stream")
  then match ev_chunk event with
       | Some (ChunkObj content) =>
           if bool_decide (content = "") then None
           else Some ("data: " +:+ content +:+ LF +:+ LF)
       | _ => None
       end
  else None.

Definition DONE : string := "data: [DONE]" +:+ LF +:+ LF.

(** The generator [generate] of [stream], consumed to its end: the lines
    it yields. *)
Definition generate {G} (svc : Services G) (call : GraphCall)
    : World G → list string * World G :=
  λ w,
    let '((events, failure), g') := graph_astream_events svc call (ext w) in
    let w' := mkWorld g' (trace w ++ [GraphStream call]) in
    let tokens := omap sse_token events in
    match failure with
    | None => (tokens ++ [DONE], w')
    | Some e =>
        (tokens ++ ["data: Error: " +:+ exc_str e +:+ LF +:+ LF],
         mkWorld g' (trace w' ++
                     [Log ERROR (TextLog ("Stream error: " +:+ exc_str e))]))
    end.

(** [StreamingResponse(generate(), media_type=..., headers=...)]; the
    body runs only when the response is sent. *)
Record StreamingResponse (G : Type) : Type := mkStreamingResponse {
  body : World G → list string * World G;
  media_type : string;
  headers : list (string * string)
}.
Arguments body {G} _ _.
Arguments media_type {G} _.
Arguments headers {G} _.

Definition stream {G} (svc : Services G) (request : InvokeRequest.t)
    : M G HTTPException (StreamingResponse G) :=
  if negb (bool_decide (InvokeRequest.node request ∈ NODES))
  then raise (mkHTTPException 400
                ("Unknown node: " +:+ InvokeRequest.node request))
  else
    thread_id ← thread_id_or_new svc request ;
    mret {| body := generate svc (make_call request thread_id);
            media_type := "text/event-stream";
            headers := [("X-Thread-ID", thread_id);
                        ("X-Node", InvokeRequest.node request)] |}.

End Main.

(* ===================================================================== *)
(** ** Vocabulary of the statements                                      *)
(* ===================================================================== *)

Module Runs.
Import Constants Middleware.

(** [n] successive invocations of a handler on the same request: their
    outcomes, oldest first, and the state they leave. *)
Fixpoint handler_run {S R A} (handler : R → S → Outcome Exception A * S)
    (request : R) (n : nat) (s : S) : list (Outcome Exception A) * S :=
  match n with
  | O => ([], s)
  | Datatypes.S n' =>
      let '(o, s1) := handler request s in
      let '(os, s2) := handler_run handler request n' s1 in
      (o :: os, s2)
  end.

(** The back-off schedule: [base * 2^attempt], capped. *)
Definition backoff (attempt : nat) : Q :=
  Qmin (retry_base_delay middleware_config * inject_Z (2 ^ Z.of_nat attempt))
       (max_retry_delay middleware_config).

(** What the retry stage does around one failed attempt, and around a run
    of them starting at attempt number [a]. *)
Definition failed_attempt (request : ModelRequest) (attempt : nat)
    (e : Exception) : list Event :=
  [ModelCall request;
   Log WARNING (RetryAttemptLog (attempt + 1) e (backoff attempt));
   Sleep (backoff attempt)].

Fixpoint failed_attempts (request : ModelRequest) (a : nat)
    (errs : list Exception) : list Event :=
  match errs with
  | [] => []
  | e :: errs' =>
      failed_attempt request a e ++ failed_attempts request (a + 1) errs'
  end.

(** A handler that plays a script: the state is the list of outcomes still
    to come, one per invocation. *)
Definition scripted {R A} (request : R) (script : list (Outcome Exception A))
    : Outcome Exception A * list (Outcome Exception A) :=
  match script with
  | o :: rest => (o, rest)
  | [] => (Raise (mkException "RuntimeError" "script exhausted"), [])
  end.

(** Sample data. *)
Definition sample_request : ModelRequest :=
  {| request_state :=
       {| messages := Some [MessageObj "human" "2+2"];
          node := Some "assistant";
          structured_response := None |};
     request_system_prompt := None;
     request_model := "gpt-5-mini" |}.

Definition settings_with_retries (max_retries : Z) : Settings.t :=
  {| Settings.ENV := Settings.LOCAL;
     Settings.ENABLE_RETRY := true;
     Settings.ENABLE_LOGGING := false;
     Settings.ENABLE_SUMMARIZATION := true;
     Settings.MAX_RETRIES := max_retries |}.

Definition timeout_error : Exception := mkException "TimeoutError" "timed out".
Definition rate_limit_error : Exception :=
  mkException "RateLimitError" "rate limit exceeded".
Definition connection_error : Exception :=
  mkException "ConnectionError" "connection reset".
Definition zero_division_error : Exception :=
  mkException "ZeroDivisionError" "division by zero".

(** Scripts for a model service that is down for a while. *)
Definition outage (failures : nat) : list (Outcome Exception string) :=
  repeat (Raise timeout_error) failures ++ [Return "4"].

Definition three_failures : list (Outcome Exception string) :=
  [Raise timeout_error; Raise rate_limit_error; Raise connection_error].

(** A tool call as the agent loop issues one. *)
Definition sample_tool_request : ToolCallRequest :=
  {| tool_call := {[ "name" := PStr "calculate";
                     "args" := PDict "{'expression': '1/0'}";
                     "id" := PStr "call_7" ]} |}.

(** The script of a tool that fails once. *)
Definition tool_fails : list (Outcome Exception ToolResult) :=
  [Raise zero_division_error].

(** [needle in haystack] *)
Definition contains (needle haystack : string) : bool :=
  match String.index 0 needle haystack with
  | Some _ => true
  | None => false
  end.

(** The four stages in the order of [build_middleware]'s docstring. *)
Definition summarization_stage : Middleware.Stage :=
  Middleware.SummarizationMiddleware "gpt-5-mini" ("tokens", 8000%Z)
                                     ("messages", 10%Z).

Definition four_stages : list Middleware.Stage :=
  [summarization_stage; Middleware.logging_stage; Middleware.retry_stage;
   Middleware.tool_error_stage].

(** The characters the [calculate] tool is meant to accept. *)
Definition is_digit (c : ascii) : bool :=
  (48 <=? nat_of_ascii c)%nat && (nat_of_ascii c <=? 57)%nat.

Definition arithmetic_char (c : ascii) : bool :=
  is_digit c
  || bool_decide (c ∈ ["+"; "-"; "*"; "/"; "."; "("; ")"; " "]%char).

(** A stand-in for Python on three expressions: [2 + 2] evaluates,
    [1/0] raises, anything else is a syntax error; [str] renders the
    integer [4]. *)
Definition toy_python : Tools.Builtins Z :=
  {| Tools.py_eval := λ expression,
       if bool_decide (expression = "2 + 2") then Return 4%Z
       else if bool_decide (expression = "1/0")
            then Raise zero_division_error
            else Raise (mkException "SyntaxError" "invalid syntax");
     Tools.py_str := λ v,
       if bool_decide (v = 4%Z) then Return "4"
       else Raise (mkException "ValueError" "Exceeds the limit") |}.

(** Collaborators of the endpoints that always answer the same way; the
    state counts the calls made to them. *)
Definition fixed_services (u : string) (result : Outcome Exception State)
    (events : list Main.StreamEvent) (failure : option Exception)
    : Main.Services nat :=
  {| Main.uuid4 := λ g, (u, Datatypes.S g);
     Main.graph_ainvoke := λ _ g, (result, Datatypes.S g);
     Main.graph_astream_events := λ _ g, ((events, failure), Datatypes.S g) |}.

Definition sample_uuid : string := "0b9e7c1e-6f0a-4c58-9d3e-2f1a5c7d8e90".

Definition answer_state : State :=
  {| messages := Some [MessageObj "human" "2+2"; MessageObj "ai" "4"];
     node := Some "assistant";
     structured_response := None |}.

Definition token (content : string) : Main.StreamEvent :=
  {| Main.ev_event := Some "on_chat_model_stream";
     Main.ev_chunk := Some (Main.ChunkObj content) |}.

Definition sample_services : Main.Services nat :=
  fixed_services sample_uuid (Return answer_state) [token "4"] None.

Definition failing_services : Main.Services nat :=
  fixed_services sample_uuid (Raise connection_error) [token "4"]
                 (Some connection_error).

Definition ask (node : string) (thread_id : option string) : InvokeRequest.t :=
  {| InvokeRequest.message := "2+2";
     InvokeRequest.node := node;
     InvokeRequest.thread_id := thread_id;
     InvokeRequest.user_id := None |}.

Definition sample_call : GraphCall :=
  Main.make_call (ask "assistant" None) sample_uuid.

End Runs.

(* ===================================================================== *)
(** ** src/core/middleware.py: the example hooks                         *)
(* ===================================================================== *)

Module Hooks.
Import Middleware.

(** What a node-style hook returns: [None] or a dict of state updates. *)
Definition StateUpdate : Type := option (gmap string pyval).

(** [runtime.context.user_id if runtime.context else "anonymous"] *)
Definition user_id_or_anonymous (runtime_context : option RequestContext)
    : string :=
  match runtime_context with
  | Some context => user_id context
  | None => "anonymous"
  end.

Definition log_before_model {S E} (state : State)
    (runtime_context : option RequestContext) : M S E StateUpdate :=
  let user_id := user_id_or_anonymous runtime_context in
  let msg_count := length (default [] (messages state)) in
  logger DEBUG (TextLog ("[Before Model] User: " +:+ user_id
                         +:+ ", Messages: " +:+ pretty msg_count)) ;;
  mret None.

Definition log_after_model {S E} (state : State)
    (runtime_context : option RequestContext) : M S E StateUpdate :=
  logger DEBUG (TextLog "[After Model] Response received") ;;
  mret None.

End Hooks.

(* ===================================================================== *)
(** ** src/tools/tools.py: the tools that read the runtime               *)
(* ===================================================================== *)

(** [BaseStore] as the tools use it: [put(namespace, key, value)], which
    may refuse its arguments, and the [get] that reads a value back. *)
Class Store (T : Type) : Type := {
  store_put : list string → string → gmap string string → T
              → Outcome Exception T;
  store_get : list string → string → T → option (gmap string string)
}.

(** What a store promises: a put that is accepted is read back, and
    changes no other entry. *)
Class StoreLaws (T : Type) `{Store T} : Prop := {
  get_put : ∀ ns key value st st',
    store_put ns key value st = Return st' →
    store_get ns key st' = Some value;
  get_put_other : ∀ ns key value st st' ns' key',
    store_put ns key value st = Return st' →
    (ns', key') ≠ (ns, key) →
    store_get ns' key' st' = store_get ns' key' st
}.

Module ToolRuntime.
(** [ToolRuntime[RequestContext]]: [context] and [store] may be [None];
    [tool_call_id] is the id of the call being executed. *)
Record t (T : Type) : Type := mk {
  context : option RequestContext;
  store : option T;
  tool_call_id : string
}.
Arguments mk {T} _ _ _.
Arguments context {T} _.
Arguments store {T} _.
Arguments tool_call_id {T} _.
End ToolRuntime.

Module RuntimeTools.


(** [save_preference]: the store after the call (still [None] when the
    runtime has none) and the [Command] returned.  A put the store
    refuses raises out of the tool. *)
Definition save_preference {T} `{Store T} (key value : string)
    (runtime : ToolRuntime.t T) : Outcome Exception (option T * Command) :=
  let user_id :=
    match ToolRuntime.context runtime with
    | Some context => user_id context
    | None => "anonymous"
    end in
  let command :=
    {| update_messages :=
         [MessageDict
            {[ "role" := "tool";
               "content" := "Saved preference '" +:+ key +:+ "' = '" +:+ value
                            +:+ "' for user " +:+ user_id;
               "tool_call_id" := ToolRuntime.tool_call_id runtime ]}] |} in
  match ToolRuntime.store runtime with
  | Some st =>
      match store_put ["preferences"; user_id] key {[ "value" := value ]} st with
      | Return st' => Return (Some st', command)
      | Raise e => Raise e
      end
  | None => Return (None, command)
  end.

End RuntimeTools.

(* ===================================================================== *)
(** ** src/agent/agents.py and src/agent/nodes.py                        *)
(* ===================================================================== *)

Module Nodes.

(** [load_prompt]: [read_text path] is the content of the file at [path]
    under [src/], or [None] when [path.exists()] is false. *)
Definition load_prompt {S E} (read_text : string → option string)
    (name : string) : M S E string :=
  match read_text ("prompts/" +:+ name +:+ ".md") with
  | Some text => mret text
  | None =>
      logger WARNING (TextLog ("Prompt not found: " +:+ name +:+ ".md")) ;;
      mret ""
  end.

(** The agent [create_agent] builds, run on a state with a context; [A] is
    the state of the model service and the stores behind it. *)
Definition AgentRun (A : Type) : Type :=
  Agents.AgentSpec → State → RequestContext → A → Outcome Exception State * A.

(** [runtime.context or RequestContext()] *)
Definition context_or_default (runtime_context : option RequestContext)
    : RequestContext :=
  default (RequestContext_new "" "") runtime_context.

(** [context.user_id or 'anonymous'] *)
Definition user_or_anonymous (context : RequestContext) : string :=
  if bool_decide (user_id context = "") then "anonymous" else user_id context.

(** [await agent.ainvoke(state, context=context)] *)
Definition call_agent {A} (ainvoke : AgentRun A) (agent : Agents.AgentSpec)
    (state : State) (context : RequestContext) : M A Exception State :=
  λ w, let '(o, a') := ainvoke agent state context (ext w) in
       (o, mkWorld a' (trace w)).

(** [Nodes.assistant] *)
Definition assistant {A} (settings : Settings.t)
    (read_text : string → option string) (ainvoke : AgentRun A)
    (state : State) (runtime_context : option RequestContext)
    : M A Exception State :=
  let context := context_or_default runtime_context in
  logger INFO (TextLog ("Executing: assistant (user="
                        +:+ user_or_anonymous context +:+ ")")) ;;
  prompt ← load_prompt read_text "assistant" ;
  call_agent ainvoke (Agents.assistant settings prompt) state context.


End Nodes.

(* ===================================================================== *)
(** ** src/agent/graph.py: the builder                                   *)
(* ===================================================================== *)

Module GraphBuilder.

Definition START : string := "__start__".
Definition END : string := "__end__".

(** The calls [build_graph] makes on its [StateGraph], in order.  What
    [StateGraph] does with a call is langgraph's business and outside the
    model: the graph is taken to accept each of them. *)
Inductive BuilderCall : Type :=
| add_node (name : string) (method : string)
| add_conditional_edges (source : string) (path_map : gmap string string)
| add_edge (source target : string).

(** [getattr(nodes, node_name)] *)
Definition getattr (attrs : list string) (name : string)
    : Outcome Exception string :=
  if bool_decide (name ∈ attrs) then Return name
  else Raise (mkException "AttributeError"
                ("'Nodes' object has no attribute '" +:+ name +:+ "'")).

(** [for node_name in NODES: graph.add_node(node_name, getattr(...))] *)
Fixpoint register_nodes (attrs : list string) (names : list string)
    : Outcome Exception (list BuilderCall) :=
  match names with
  | [] => Return []
  | node_name :: rest =>
      match getattr attrs node_name with
      | Return method =>
          match register_nodes attrs rest with
          | Return calls => Return (add_node node_name method :: calls)
          | Raise e => Raise e
          end
      | Raise e => Raise e
      end
  end.

(** [{n: n for n in NODES}] *)
Definition path_map (names : list string) : gmap string string :=
  list_to_map (map (λ n, (n, n)) (reverse names)).

(** [build_graph], for the node list [names] and the attributes [attrs]
    of the [nodes] object. *)
Definition build_graph_with (attrs names : list string)
    : Outcome Exception (list BuilderCall) :=
  match register_nodes attrs names with
  | Return calls =>
      Return (calls
              ++ [add_conditional_edges START (path_map names)]
              ++ map (λ n, add_edge n END) names)
  | Raise e => Raise e
  end.


End GraphBuilder.

(* ===================================================================== *)
(** ** main.py: the read-only endpoints                                  *)
(* ===================================================================== *)

Module Info.

(** [GET /health]: [{"status": "ok", "env": settings.ENV}] *)
Definition health (settings : Settings.t) : string * Settings.Env :=
  ("ok", Settings.ENV settings).

(** [GET /nodes]: [{"nodes": NODES}] *)
Definition list_nodes : list string := Constants.NODES.

End Info.

(* ===================================================================== *)
(** ** More sample data                                                  *)
(* ===================================================================== *)

Module Samples.

(** A store kept in a dictionary, which accepts every put. *)
Definition DictStore : Type := gmap (list string * string) (gmap string string).

#[global] Instance DictStore_store : Store DictStore := {|
  store_put := λ ns key value st, Return (<[(ns, key) := value]> st);
  store_get := λ ns key st, st !! (ns, key)
|}.

Definition alice : RequestContext := RequestContext_new "alice" "thread-1".

Definition alice_runtime : ToolRuntime.t DictStore :=
  ToolRuntime.mk (Some alice) (Some ∅) "call_9".

(** An agent that answers every state with the same conversation. *)
Definition canned_agent : Nodes.AgentRun nat :=
  λ _ _ _ a, (Return Runs.answer_state, Datatypes.S a).

Definition no_prompt_file : string → option string := λ _, None.

(** A Python that also runs [exit()]: it differs from [Runs.toy_python]
    on that one expression. *)
Definition shell_python : Tools.Builtins Z :=
  {| Tools.py_eval := λ expression,
       if bool_decide (expression = "exit()") then Return 0%Z
       else Tools.py_eval Runs.toy_python expression;
     Tools.py_str := Tools.py_str Runs.toy_python |}.

(** A tool call whose id is [None], as [ToolCall] allows
    ([id: str | None]). *)
Definition tool_request_with_none_id : ToolCallRequest :=
  {| tool_call := {[ "name" := PStr "calculate";
                     "args" := PDict "{'expression': '1/0'}";
                     "id" := PNone ]} |}.

(** A tool call that lost its id. *)
Definition tool_request_without_id : ToolCallRequest :=
  {| tool_call := {[ "name" := PStr "calculate";
                     "args" := PDict "{'expression': '1/0'}" ]} |}.

End Samples.

(* ===================================================================== *)
(** * Properties                                                         *)
(* ===================================================================== *)

(** Unfolds the monadic plumbing down to world-passing functions. *)
Ltac run_M :=
  unfold mbind, mret, M_bind, M_ret, bind, ret, raise, try, lift, logger,
    time_sleep, emit, external in *.

(* ===================================================================== *)
(** ** The retry stage                                                   *)
(* ===================================================================== *)

Section Retry.
Import Constants Middleware Runs.
Context {S Response : Type}.
Variable settings : Settings.t.
Variable request : ModelRequest.
Variable handler : ModelHandler S Response.

Lemma retry_delay_in_range (attempt : nat) :
  (attempt < DBL_MAX_EXP)%nat → retry_delay attempt = Return (backoff attempt).
Proof.
  intros Hlt. unfold retry_delay, float_of_pow2.
  destruct (Nat.ltb_spec attempt DBL_MAX_EXP) as [_ | Hge]; [reflexivity | lia].
Qed.

Lemma retry_delay_overflow (attempt : nat) :
  (DBL_MAX_EXP ≤ attempt)%nat →
  retry_delay attempt = Raise OverflowError_int_to_float.
Proof.
  intros Hge. unfold retry_delay, float_of_pow2.
  destruct (Nat.ltb_spec attempt DBL_MAX_EXP) as [Hlt | _]; [lia | reflexivity].
Qed.

Lemma handler_run_S (n : nat) (s : S) :
  handler_run handler request (Datatypes.S n) s =
  let '(o, s1) := handler request s in
  let '(os, s2) := handler_run handler request n s1 in
  (o :: os, s2).
Proof. reflexivity. Qed.

Lemma handler_run_length (n : nat) :
  ∀ (s : S), length (fst (handler_run handler request n s)) = n.
Proof.
  induction n as [| n IH]; intros s; [reflexivity |].
  rewrite handler_run_S. specialize (IH (snd (handler request s))).
  destruct (handler request s) as [o s1]. cbn [snd] in IH.
  destruct (handler_run handler request n s1) as [os s2].
  cbn [fst length] in *. lia.
Qed.

(** One turn of the loop, by the outcome of the attempt. *)
Lemma retry_loop_cons attempt rest last_error (w : World S) :
  retry_loop settings (attempt :: rest) last_error request handler w =
  match handler request (ext w) with
  | (Return response, s1) =>
      (Return response, mkWorld s1 (trace w ++ [ModelCall request]))
  | (Raise e, s1) =>
      match retry_delay attempt with
      | Return delay =>
          retry_loop settings rest (Some e) request handler
            (mkWorld s1
               (trace w ++
                [ModelCall request;
                 Log WARNING (RetryAttemptLog (attempt + 1) e delay);
                 Sleep delay]))
      | Raise e' => (Raise e', mkWorld s1 (trace w ++ [ModelCall request]))
      end
  end.
Proof.
  cbn [retry_loop]. unfold call_model. run_M. cbn [ext trace].
  destruct (handler request (ext w)) as [[response | e] s1]; [reflexivity |].
  destruct (retry_delay attempt) as [delay | e']; [| reflexivity].
  cbn [ext trace]. do 2 rewrite <- app_assoc. reflexivity.
Qed.

Lemma retry_loop_nil last_error (w : World S) :
  retry_loop settings [] last_error request handler w =
  (Raise (default TypeError_raise_None last_error),
   mkWorld (ext w)
     (trace w ++ [Log ERROR (RetryExhaustedLog (Settings.MAX_RETRIES settings))])).
Proof. cbn [retry_loop]. run_M. destruct last_error; reflexivity. Qed.

(** A run of failures followed by a success, inside the loop. *)
Lemma retry_loop_succeeds (errs : list Exception) :
  ∀ (a n : nat) last_error (s s' : S) tr (r : Response),
    (length errs < n)%nat →
    (a + length errs ≤ DBL_MAX_EXP)%nat →
    handler_run handler request (Datatypes.S (length errs)) s
      = (map Raise errs ++ [Return r], s') →
    retry_loop settings (seq a n) last_error request handler (mkWorld s tr)
      = (Return r,
         mkWorld s' (tr ++ failed_attempts request a errs ++ [ModelCall request])).
Proof.
  induction errs as [| e errs IH]; intros a n last_error s s' tr r Hn Ha Hrun.
  - destruct n as [| n]; [simpl in Hn; lia |].
    cbn [seq]. rewrite retry_loop_cons. cbn [ext trace].
    cbn in Hrun. destruct (handler request s) as [o s1].
    simplify_eq. reflexivity.
  - destruct n as [| n]; [simpl in Hn; lia |].
    cbn [seq]. rewrite retry_loop_cons. cbn [ext trace].
    cbn [length] in Hrun. rewrite handler_run_S in Hrun.
    destruct (handler request s) as [o s1].
    destruct (handler_run handler request (Datatypes.S (length errs)) s1)
      as [os s2] eqn:Hrest.
    cbn [map app] in Hrun. simplify_eq. cbv beta iota.
    cbn [length] in Hn, Ha.
    rewrite retry_delay_in_range by lia.
    rewrite (IH (Datatypes.S a) n (Some e) s1 s' _ r) by (lia || assumption).
    cbn [failed_attempts]. unfold failed_attempt.
    replace (a + 1)%nat with (Datatypes.S a) by lia.
    repeat rewrite <- app_assoc. reflexivity.
Qed.

(** A run of failures that uses up every attempt. *)
Lemma retry_loop_exhausted (errs : list Exception) :
  ∀ (a : nat) last_error (s s' : S) tr,
    (a + length errs ≤ DBL_MAX_EXP)%nat →
    handler_run handler request (length errs) s
      = (map (Raise (A:=Response)) errs, s') →
    retry_loop settings (seq a (length errs)) last_error request handler
               (mkWorld s tr)
      = (Raise (default TypeError_raise_None
                        (match last errs with
                         | Some e => Some e
                         | None => last_error
                         end)),
         mkWorld s'
           (tr ++ failed_attempts request a errs ++
            [Log ERROR (RetryExhaustedLog (Settings.MAX_RETRIES settings))])).
Proof.
  induction errs as [| e errs IH]; intros a last_error s s' tr Ha Hrun.
  - cbn in Hrun. simplify_eq.
    cbn [length seq]. rewrite retry_loop_nil. reflexivity.
  - cbn [length seq]. rewrite retry_loop_cons. cbn [ext trace].
    cbn [length] in Hrun. rewrite handler_run_S in Hrun.
    destruct (handler request s) as [o s1].
    destruct (handler_run handler request (length errs) s1) as [os s2] eqn:Hrest.
    cbn [map] in Hrun. simplify_eq. cbv beta iota.
    cbn [length] in Ha.
    rewrite retry_delay_in_range by lia.
    rewrite (IH (Datatypes.S a) (Some e) s1 s') by (lia || assumption).
    cbn [failed_attempts]. unfold failed_attempt.
    replace (a + 1)%nat with (Datatypes.S a) by lia.
    repeat rewrite <- app_assoc.
    destruct errs as [| e' errs]; [reflexivity |].
    rewrite last_cons_cons.
    destruct (last (e' :: errs)) eqn:Hlast; [reflexivity |].
    apply last_None in Hlast. discriminate.
Qed.

(** A run of failures inside the loop: the loop carries on with the
    attempts that are left. *)
Lemma retry_loop_failures (errs : list Exception) :
  ∀ (a : nat) (rest : list nat) last_error (s s' : S) tr,
    (a + length errs ≤ DBL_MAX_EXP)%nat →
    handler_run handler request (length errs) s
      = (map (Raise (A:=Response)) errs, s') →
    retry_loop settings (seq a (length errs) ++ rest) last_error request
               handler (mkWorld s tr)
      = retry_loop settings rest
          (match last errs with Some e => Some e | None => last_error end)
          request handler
          (mkWorld s' (tr ++ failed_attempts request a errs)).
Proof.
  induction errs as [| e errs IH]; intros a rest last_error s s' tr Ha Hrun.
  - cbn in Hrun. simplify_eq. cbn [length seq app failed_attempts last].
    rewrite app_nil_r. reflexivity.
  - cbn [length seq app]. rewrite retry_loop_cons. cbn [ext trace].
    cbn [length] in Hrun. rewrite handler_run_S in Hrun.
    destruct (handler request s) as [o s1].
    destruct (handler_run handler request (length errs) s1) as [os s2] eqn:Hrest.
    cbn [map] in Hrun. simplify_eq. cbv beta iota.
    cbn [length] in Ha.
    rewrite retry_delay_in_range by lia.
    rewrite (IH (Datatypes.S a) rest (Some e) s1 s') by (lia || assumption).
    cbn [failed_attempts]. unfold failed_attempt.
    replace (a + 1)%nat with (Datatypes.S a) by lia.
    repeat rewrite <- app_assoc.
    destruct errs as [| e' errs]; [reflexivity |].
    rewrite last_cons_cons.
    destruct (last (e' :: errs)) eqn:Hlast; [reflexivity |].
    apply last_None in Hlast. discriminate.
Qed.

(** X2: past the float range: once 1024 attempts have failed and the next one
    fails too, the delay cannot be computed and the stage raises
    [OverflowError], whatever attempts are left. *)
Lemma retry_overflows_on_attempt_1024 (errs : list Exception) (e : Exception)
    (s s1 s2 : S) (tr : list Event) :
  (Z.of_nat DBL_MAX_EXP < Settings.MAX_RETRIES settings)%Z →
  handler_run handler request DBL_MAX_EXP s = (map Raise errs, s1) →
  handler request s1 = (Raise e, s2) →
  retry_middleware settings request handler (mkWorld s tr)
    = (Raise OverflowError_int_to_float,
       mkWorld s2 (tr ++ failed_attempts request 0 errs ++ [ModelCall request])).
Proof.
  intros Hmax Hrun Hnext.
  assert (Hlen : length errs = DBL_MAX_EXP).
  { pose proof (handler_run_length DBL_MAX_EXP s) as Hl.
    rewrite Hrun in Hl. cbn [fst] in Hl. rewrite length_map in Hl. exact Hl. }
  unfold retry_middleware, range.
  replace (Z.to_nat (Settings.MAX_RETRIES settings))
    with (length errs + Datatypes.S (Z.to_nat (Settings.MAX_RETRIES settings)
                                    - Datatypes.S (length errs)))%nat by lia.
  rewrite seq_app. rewrite <- Hlen in Hrun.
  rewrite (retry_loop_failures errs 0 _ None s s1 tr) by (lia || assumption).
  cbn [seq]. rewrite retry_loop_cons. cbn [ext trace]. rewrite Hnext.
  rewrite retry_delay_overflow by lia.
  rewrite <- app_assoc. reflexivity.
Qed.

(** The handler calls and the sleeps among the events of a run of failed
    attempts. *)
Lemma model_calls_failed_attempts a errs :
  model_calls (failed_attempts request a errs) = repeat request (length errs).
Proof.
  revert a. induction errs as [| e errs IH]; intros a; [reflexivity |].
  cbn [failed_attempts failed_attempt app length repeat].
  unfold model_calls in *. cbn. f_equal. apply IH.
Qed.

Lemma sleeps_failed_attempts a errs :
  sleeps (failed_attempts request a errs) = map backoff (seq a (length errs)).
Proof.
  revert a. induction errs as [| e errs IH]; intros a; [reflexivity |].
  cbn [failed_attempts failed_attempt app length seq map].
  unfold sleeps in *. cbn [omap list_omap]. f_equal.
  replace (a + 1)%nat with (Datatypes.S a) by lia. apply IH.
Qed.

(** The schedule never exceeds the cap, and below the cap each delay is
    strictly longer than the one before. *)
Lemma backoff_le_cap (attempt : nat) :
  (backoff attempt <= max_retry_delay middleware_config)%Q.
Proof. unfold backoff. apply Q.le_min_r. Qed.

Lemma backoff_increasing_below_cap (attempt : nat) :
  (backoff attempt < max_retry_delay middleware_config)%Q →
  (backoff attempt < backoff (Datatypes.S attempt))%Q.
Proof.
  intros Hbelow. unfold backoff in *.
  apply Q.min_glb_lt; [| exact Hbelow].
  eapply Qle_lt_trans; [apply Q.le_min_l |].
  unfold Qlt, retry_base_delay, middleware_config. cbn [Qnum Qden Qmult inject_Z].
  rewrite Nat2Z.inj_succ, Z.pow_succ_r by lia.
  assert (0 < 2 ^ Z.of_nat attempt)%Z by (apply Z.pow_pos_nonneg; lia).
  lia.
Qed.

Lemma backoff_monotone (attempt : nat) :
  (backoff attempt <= backoff (Datatypes.S attempt))%Q.
Proof.
  unfold backoff. apply Q.min_le_compat_r.
  unfold Qle, retry_base_delay, middleware_config. cbn [Qnum Qden Qmult inject_Z].
  rewrite Nat2Z.inj_succ, Z.pow_succ_r by lia.
  assert (0 < 2 ^ Z.of_nat attempt)%Z by (apply Z.pow_pos_nonneg; lia).
  lia.
Qed.

(** X1: within the range where [2**attempt] converts to a float, a handler
    that fails [N-1] times and then succeeds is invoked exactly [N] times,
    the stage sleeps [backoff 0], ..., [backoff (N-2)] between the
    attempts, and the successful response comes back unchanged. *)
Lemma retry_succeeds_on_attempt (N : nat) (errs : list Exception)
    (r : Response) (s s' : S) (tr : list Event) :
  (1 ≤ N)%nat →
  (Z.of_nat N ≤ Settings.MAX_RETRIES settings)%Z →
  (N ≤ Datatypes.S DBL_MAX_EXP)%nat →
  length errs = (N - 1)%nat →
  handler_run handler request N s = (map Raise errs ++ [Return r], s') →
  ∃ tr',
    retry_middleware settings request handler (mkWorld s tr)
      = (Return r, mkWorld s' (tr ++ tr')) ∧
    model_calls tr' = repeat request N ∧
    sleeps tr' = map backoff (seq 0 (N - 1)).
Proof.
  intros HN Hmax Hrange Hlen Hrun.
  exists (failed_attempts request 0 errs ++ [ModelCall request]).
  replace N with (Datatypes.S (length errs)) in Hrun by lia.
  split; [| split].
  - unfold retry_middleware, range.
    apply retry_loop_succeeds; [lia | lia | exact Hrun].
  - unfold model_calls. rewrite omap_app.
    fold (model_calls (failed_attempts request 0 errs)).
    rewrite model_calls_failed_attempts, Hlen. cbn [omap list_omap].
    replace N with (Datatypes.S (N - 1)) at 2 by lia.
    cbn [repeat]. symmetry. apply repeat_cons.
  - unfold sleeps. rewrite omap_app.
    fold (sleeps (failed_attempts request 0 errs)).
    rewrite sleeps_failed_attempts, Hlen. cbn [omap list_omap].
    apply app_nil_r.
Qed.

(** C2, as the code has it: when every one of the [MAX_RETRIES] attempts
    fails (with [MAX_RETRIES] between 1 and 1024, the range in which every
    delay is computed), the stage invokes the handler exactly [MAX_RETRIES]
    times, makes no further attempt, and raises the failure of the last
    attempt. *)
Theorem retry_exhausted_raises_last_failure
    (errs : list Exception) (s s' : S) (tr : list Event) :
  (1 ≤ Settings.MAX_RETRIES settings ≤ Z.of_nat DBL_MAX_EXP)%Z →
  handler_run handler request (Z.to_nat (Settings.MAX_RETRIES settings)) s
    = (map Raise errs, s') →
  ∃ e tr',
    last errs = Some e ∧
    retry_middleware settings request handler (mkWorld s tr)
      = (Raise e, mkWorld s' (tr ++ tr')) ∧
    model_calls tr' = repeat request (Z.to_nat (Settings.MAX_RETRIES settings)).
Proof.
  intros Hmax Hrun.
  assert (Hlen : length errs = Z.to_nat (Settings.MAX_RETRIES settings)).
  { pose proof (handler_run_length (Z.to_nat (Settings.MAX_RETRIES settings)) s)
      as Hl.
    rewrite Hrun in Hl. cbn [fst] in Hl. rewrite length_map in Hl. exact Hl. }
  destruct (last errs) as [e |] eqn:Hlast.
  - exists e,
      (failed_attempts request 0 errs ++
       [Log ERROR (RetryExhaustedLog (Settings.MAX_RETRIES settings))]).
    split; [reflexivity | split].
    + unfold retry_middleware, range. rewrite <- Hlen in *.
      rewrite (retry_loop_exhausted errs 0 None s s' tr) by (lia || assumption).
      rewrite Hlast. reflexivity.
    + unfold model_calls. rewrite omap_app.
      fold (model_calls (failed_attempts request 0 errs)).
      rewrite model_calls_failed_attempts, Hlen. cbn [omap list_omap].
      apply app_nil_r.
  - apply last_None in Hlast. subst errs. cbn [length] in Hlen. lia.
Qed.

End Retry.

Section RetryOnScripts.
Import Constants Middleware Runs.

(** C1, where the code departs from it: with [MAX_RETRIES = 1026] and a
    handler that fails 1025 times and then succeeds, the 1026th attempt is
    never made.  After the 1025th failure the delay expression
    [retry_base_delay * (2**1024)] raises [OverflowError] inside the
    [except] block, and that is what the stage raises. *)
Theorem retry_overflows_before_attempt_1026 :
  handler_run scripted sample_request 1026 (outage 1025) = (outage 1025, []) ∧
  fst (retry_middleware (settings_with_retries 1026) sample_request scripted
         (mkWorld (outage 1025) []))
    = Raise OverflowError_int_to_float ∧
  length (model_calls (trace (snd
    (retry_middleware (settings_with_retries 1026) sample_request scripted
       (mkWorld (outage 1025) []))))) = 1025%nat ∧
  ext (snd (retry_middleware (settings_with_retries 1026) sample_request
              scripted (mkWorld (outage 1025) [])))
    = [Return "4"].
Proof. split; [| split; [| split]]; vm_compute; reflexivity. Qed.

(** The same handler within the float range: three failures, then the
    answer on the fourth attempt, after sleeping 1, 2 and 4 seconds. *)
Lemma retry_succeeds_on_attempt_4 :
  ∃ tr',
    retry_middleware (settings_with_retries 5) sample_request scripted
      (mkWorld (outage 3) []) = (Return "4", mkWorld [] ([] ++ tr')) ∧
    model_calls tr' = repeat sample_request 4 ∧
    sleeps tr' = map backoff (seq 0 (4 - 1)).
Proof.
  apply (retry_succeeds_on_attempt (settings_with_retries 5) sample_request
           scripted 4 (repeat timeout_error 3));
    [lia | cbn; lia | unfold DBL_MAX_EXP; lia | reflexivity | reflexivity].
Defined.

(** C2 as stated fails: with the default [MAX_RETRIES = 3] and a handler
    whose three attempts fail with a timeout, a rate limit and a connection
    reset, the stage raises the connection reset of the third attempt, not
    the timeout of the first. *)
Lemma retry_does_not_raise_first_failure :
  handler_run scripted sample_request 3 three_failures
    = (three_failures, []) ∧
  fst (retry_middleware Settings.defaults sample_request (scripted (A:=string))
         (mkWorld three_failures []))
    = Raise connection_error ∧
  fst (retry_middleware Settings.defaults sample_request (scripted (A:=string))
         (mkWorld three_failures []))
    ≠ Raise timeout_error.
Proof.
  split; [reflexivity | split; [reflexivity |]].
  vm_compute. discriminate.
Qed.

Lemma retry_exhausted_raises_last_failure_witness :
  (1 ≤ Settings.MAX_RETRIES Settings.defaults ≤ Z.of_nat DBL_MAX_EXP)%Z ∧
  handler_run (scripted (A:=string)) sample_request
      (Z.to_nat (Settings.MAX_RETRIES Settings.defaults))
      three_failures
    = (map Raise [timeout_error; rate_limit_error; connection_error], []) ∧
  ∃ e tr',
    last [timeout_error; rate_limit_error; connection_error] = Some e ∧
    retry_middleware Settings.defaults sample_request (scripted (A:=string))
      (mkWorld three_failures [])
      = (Raise e, mkWorld [] ([] ++ tr')) ∧
    model_calls tr'
      = repeat sample_request (Z.to_nat (Settings.MAX_RETRIES Settings.defaults)).
Proof.
  split; [cbn; unfold DBL_MAX_EXP; lia |].
  split; [reflexivity |].
  apply (retry_exhausted_raises_last_failure Settings.defaults sample_request
           scripted [timeout_error; rate_limit_error; connection_error]);
    [cbn; unfold DBL_MAX_EXP; lia | reflexivity].
Defined.

End RetryOnScripts.

(* ===================================================================== *)
(** ** The tool-error and logging stages                                 *)
(* ===================================================================== *)

Section ToolErrors.
Import Middleware Runs.
Context {S : Type}.
Variable request : ToolCallRequest.
Variable handler : ToolHandler S.



(** A handler that returns is not interfered with. *)
Lemma tool_result_passes_through (result : ToolResult) (s s1 : S) tr :
  handler request s = (Return result, s1) →
  wrap_tool_call request handler (mkWorld s tr)
    = (Return result, mkWorld s1 (tr ++ [ToolCall request])).
Proof.
  intros Hret. unfold wrap_tool_call, _handle, call_tool.
  unfold mbind, mret, M_bind, M_ret, bind, ret, try, external.
  cbn [ext trace]. rewrite Hret. reflexivity.
Qed.

End ToolErrors.


(** C3, where the code departs from it: on a tool call whose ["id"] is
    [None] the isolation fails.  The handler's [ZeroDivisionError] is
    caught and the error text is logged, but [ToolMessage(...,
    tool_call_id=None)] is then refused by pydantic, and that
    [ValidationError] leaves the stage, on the sync and on the async path:
    no tool-result message is produced.  A tool call without any ["id"]
    key fares the same with a [KeyError]. *)
Theorem tool_error_escapes_without_string_id :
  Runs.scripted Samples.tool_request_with_none_id Runs.tool_fails
    = (Raise Runs.zero_division_error, []) ∧
  tool_call Samples.tool_request_with_none_id !! "id" = Some PNone ∧
  (∃ e text,
     Middleware.wrap_tool_call Samples.tool_request_with_none_id Runs.scripted
         (mkWorld Runs.tool_fails [])
       = (Raise e,
          mkWorld [] [ToolCall Samples.tool_request_with_none_id;
                      Log ERROR (TextLog text)]) ∧
     Middleware.awrap_tool_call Samples.tool_request_with_none_id Runs.scripted
         (mkWorld Runs.tool_fails [])
       = (Raise e,
          mkWorld [] [ToolCall Samples.tool_request_with_none_id;
                      Log ERROR (TextLog text)]) ∧
     exc_class e = "ValidationError" ∧
     text = "Tool error in 'calculate': division by zero. "
            +:+ "Please check your input and try again.") ∧
  tool_call Samples.tool_request_without_id !! "id" = None ∧
  fst (Middleware.wrap_tool_call Samples.tool_request_without_id Runs.scripted
         (mkWorld Runs.tool_fails []))
    = Raise (KeyError "id") ∧
  fst (Middleware.awrap_tool_call Samples.tool_request_without_id Runs.scripted
         (mkWorld Runs.tool_fails []))
    = Raise (KeyError "id").
Proof.
  split; [reflexivity |].
  split; [vm_compute; reflexivity |].
  split.
  - eexists _, _.
    split; [vm_compute; reflexivity |].
    split; [vm_compute; reflexivity |].
    split; vm_compute; reflexivity.
  - split; [vm_compute; reflexivity |].
    split; vm_compute; reflexivity.
Qed.

Section Logging.
Import Middleware Runs.
Context {S Response : Type}.

(** C9: the logging stage hands the inner handler the very request it was
    given, exactly once, and its outcome and the state it leaves are those
    of that one call: the response (or the failure) is passed on
    untouched; all the stage adds are log records. *)
Theorem logging_is_transparent
    (request : ModelRequest) (handler : ModelHandler S Response)
    (s : S) (tr : list Event) :
  ∃ tr',
    logging_middleware request handler (mkWorld s tr)
      = (fst (handler request s), mkWorld (snd (handler request s)) (tr ++ tr')) ∧
    model_calls tr' = [request] ∧
    Forall (λ ev, ev = ModelCall request ∨ ∃ record, ev = Log INFO record) tr'.
Proof.
  unfold logging_middleware, call_model. run_M. cbn [ext trace].
  destruct (last_message (request_state request)) as [last_msg |];
    cbn [ext trace];
    destruct (handler request s) as [[response | e] s1]; cbn [fst snd ext trace];
    eexists; (split; [repeat rewrite <- app_assoc; reflexivity |]);
    (split; [reflexivity |]);
    cbn [app];
    repeat (apply Forall_cons_2;
            [first [left; reflexivity | right; eexists; reflexivity] |]);
    apply Forall_nil_2.
Qed.

End Logging.

(* ===================================================================== *)
(** ** The default middleware stack                                      *)
(* ===================================================================== *)

Section Stack.
Import Middleware Runs.

(** C4 as stated fails: under the default settings, logging and retry are
    switched off, and the chain has two stages, not four. *)
Lemma default_chain_has_two_stages :
  DEFAULT_MIDDLEWARE Settings.defaults
    = [summarization_stage; tool_error_stage] ∧
  DEFAULT_MIDDLEWARE Settings.defaults ≠ four_stages.
Proof. split; [reflexivity | discriminate]. Qed.

(** C4, as the code has it: the chain is computed from the settings alone
    and handed unchanged to every agent that is created.  It keeps the
    order summarization, logging, retry, tool-error-isolation; the last
    stage is always there and always last, each of the first three is
    there exactly when its [ENABLE_] flag is set, and so the chain is the
    four stages exactly when all three flags are set. *)
Theorem default_middleware_follows_flags (settings : Settings.t) :
  sublist (DEFAULT_MIDDLEWARE settings) four_stages ∧
  last (DEFAULT_MIDDLEWARE settings) = Some tool_error_stage ∧
  (summarization_stage ∈ DEFAULT_MIDDLEWARE settings
     ↔ Settings.ENABLE_SUMMARIZATION settings = true) ∧
  (logging_stage ∈ DEFAULT_MIDDLEWARE settings
     ↔ Settings.ENABLE_LOGGING settings = true) ∧
  (retry_stage ∈ DEFAULT_MIDDLEWARE settings
     ↔ Settings.ENABLE_RETRY settings = true) ∧
  (DEFAULT_MIDDLEWARE settings = four_stages
     ↔ Settings.ENABLE_SUMMARIZATION settings = true
       ∧ Settings.ENABLE_LOGGING settings = true
       ∧ Settings.ENABLE_RETRY settings = true) ∧
  (∀ prompt,
     Agents.middleware (Agents.assistant settings prompt)
       = DEFAULT_MIDDLEWARE settings).
Proof.
  destruct settings as [env retry logging summarization max].
  unfold DEFAULT_MIDDLEWARE, build_middleware, four_stages, summarization_stage.
  cbn [Settings.ENABLE_SUMMARIZATION Settings.ENABLE_LOGGING
       Settings.ENABLE_RETRY Agents.middleware Agents.assistant].
  unfold DEFAULT_MIDDLEWARE, build_middleware.
  cbn [Settings.ENABLE_SUMMARIZATION Settings.ENABLE_LOGGING
       Settings.ENABLE_RETRY].
  destruct summarization, logging, retry; cbn [app last Constants.gpt_5_mini
    Constants.models];
    (split; [repeat first [apply sublist_nil | apply sublist_skip
                           | apply sublist_cons] |]);
    (split; [reflexivity |]);
    repeat split; try reflexivity; try discriminate;
    intros H; try reflexivity; try discriminate;
    try (repeat first [apply list_elem_of_here | apply list_elem_of_further];
         fail);
    try (destruct H as (H1 & H2 & H3); discriminate);
    repeat (apply elem_of_cons in H as [H | H]; [discriminate |]);
    apply elem_of_nil in H; contradiction.
Qed.

End Stack.

(* ===================================================================== *)
(** ** Routing                                                           *)
(* ===================================================================== *)

Section Routing.
Import Graph.

(** C5 as stated fails: a routing field holding the empty string is
    returned as it is, not replaced by the default node. *)
Lemma route_keeps_empty_node :
  route_to_node {| messages := None; node := Some "";
                   structured_response := None |} = "" ∧
  route_to_node {| messages := None; node := Some "";
                   structured_response := None |} ≠ "assistant".
Proof. split; [reflexivity | discriminate]. Qed.

(** C5, as the code has it: a state carrying a node name (registered or
    not, empty or not) is routed to exactly that name, and a state
    without the routing field is routed to ["assistant"]. *)
Theorem route_to_node_returns_field
    (ms : option (list Message)) (out : option Output) :
  (∀ name,
     route_to_node {| messages := ms; node := Some name;
                      structured_response := out |} = name) ∧
  route_to_node {| messages := ms; node := None;
                   structured_response := out |} = "assistant".
Proof. split; [intros name |]; reflexivity. Qed.

(** In particular every registered node is routed to itself. *)
Lemma route_registered (state : State) (name : string) :
  name ∈ Constants.NODES → node state = Some name →
  route_to_node state = name.
Proof. intros _ Hnode. unfold route_to_node. rewrite Hnode. reflexivity. Qed.

End Routing.

(* ===================================================================== *)
(** ** The calculate tool                                                *)
(* ===================================================================== *)

Section Calculate.
Import Tools Runs.

(** The literal of the source spells out the digits, the four operators,
    the dot, the parentheses and the space. *)
Lemma allowed_spec (c : ascii) :
  bool_decide (c ∈ allowed) = arithmetic_char c.
Proof.
  destruct c as [[] [] [] [] [] [] [] []]; vm_compute; reflexivity.
Qed.

Lemma all_allowed_spec (expression : string) :
  all_allowed expression = true
  ↔ ∀ c, c ∈ list_ascii_of_string expression → arithmetic_char c = true.
Proof.
  unfold all_allowed. rewrite forallb_forall. split.
  - intros H c Hc. rewrite <- allowed_spec. apply H.
    apply list_elem_of_In. exact Hc.
  - intros H c Hc. rewrite allowed_spec. apply H.
    apply list_elem_of_In. exact Hc.
Qed.

(** C10: whatever [eval] and [str] do (return or raise), [calculate]
    returns a string.  On an input with a character outside the digits,
    [+ - * / . ( )] and the space the string is "Error: Invalid
    characters"; on any other input a failure [e] of the evaluation comes
    back as "Error: <e>", and a successful evaluation as the rendered
    value. *)
Theorem calculate_never_raises {V : Type} (py : Builtins V)
    (expression : string) :
  ∃ out,
    calculate py expression = Return out ∧
    ((∃ c, c ∈ list_ascii_of_string expression ∧ arithmetic_char c = false)
       → out = "Error: Invalid characters") ∧
    ((∀ c, c ∈ list_ascii_of_string expression → arithmetic_char c = true)
       → match py_eval py expression with
         | Raise e =>
             out = "Error: " +:+ exc_str e ∧ String.prefix "Error:" out = true
         | Return v =>
             match py_str py v with
             | Raise e =>
                 out = "Error: " +:+ exc_str e
                 ∧ String.prefix "Error:" out = true
             | Return rendered => out = rendered
             end
         end).
Proof.
  unfold calculate, try_except.
  destruct (all_allowed expression) eqn:Hall; cbn [negb].
  - assert (Hok := proj1 (all_allowed_spec expression) Hall).
    destruct (py_eval py expression) as [v | e].
    + destruct (py_str py v) as [rendered | e].
      * exists rendered. split; [reflexivity | split; [| intros _; reflexivity]].
        intros (c & Hc & Hbad). rewrite (Hok c Hc) in Hbad. discriminate.
      * exists ("Error: " +:+ exc_str e).
        split; [reflexivity | split; [| intros _; split; reflexivity]].
        intros (c & Hc & Hbad). rewrite (Hok c Hc) in Hbad. discriminate.
    + exists ("Error: " +:+ exc_str e).
      split; [reflexivity | split; [| intros _; split; reflexivity]].
      intros (c & Hc & Hbad). rewrite (Hok c Hc) in Hbad. discriminate.
  - exists "Error: Invalid characters".
    split; [reflexivity | split; [reflexivity |]].
    intros Hok. apply all_allowed_spec in Hok. congruence.
Qed.

End Calculate.

Lemma calculate_never_raises_witness :
  Tools.calculate Runs.toy_python "2 + 2" = Return "4" ∧
  Tools.calculate Runs.toy_python "1/0" = Return "Error: division by zero" ∧
  Tools.calculate Runs.toy_python "__import__('os')"
    = Return "Error: Invalid characters" ∧
  ∃ out, Tools.calculate Runs.toy_python "1/0" = Return out.
Proof.
  repeat split; try reflexivity.
  destruct (calculate_never_raises Runs.toy_python "1/0") as (out & Hout & _).
  exists out. exact Hout.
Defined.

(* ===================================================================== *)
(** ** The endpoints                                                     *)
(* ===================================================================== *)

Section Endpoints.
Import Constants Main Runs.
Context {G : Type}.
Variable svc : Services G.

Lemma NODES_repr : repr_list NODES = "['assistant']".
Proof. reflexivity. Qed.

(** Both endpoints turn an unregistered node away with status 400 before
    anything else happens: no thread id is drawn and the graph is not
    run.  [/invoke] lists the registered nodes in the message. *)
Lemma unknown_node_rejected (request : InvokeRequest.t) (w : World G) :
  InvokeRequest.node request ∉ NODES →
  invoke svc request w
    = (Raise (mkHTTPException 400
                ("Unknown node: " +:+ InvokeRequest.node request
                 +:+ ". Available: ['assistant']")), w) ∧
  stream svc request w
    = (Raise (mkHTTPException 400
                ("Unknown node: " +:+ InvokeRequest.node request)), w).
Proof.
  intros Hnot. unfold invoke, stream.
  rewrite (bool_decide_eq_false_2 _ Hnot). cbn [negb]. split; reflexivity.
Qed.

(** C6, where the code departs from it: [/stream] on the unregistered node
    ["nonexistent"] answers 400 without running the graph, but its message
    is "Unknown node: nonexistent" and names no valid node, whereas
    [/invoke] on the same request appends "Available: ['assistant']". *)
Theorem stream_error_omits_valid_nodes (w : World G) :
  stream svc (ask "nonexistent" None) w
    = (Raise (mkHTTPException 400 "Unknown node: nonexistent"), w) ∧
  contains "assistant" "Unknown node: nonexistent" = false ∧
  invoke svc (ask "nonexistent" None) w
    = (Raise (mkHTTPException 400
                "Unknown node: nonexistent. Available: ['assistant']"), w) ∧
  contains "assistant" "Unknown node: nonexistent. Available: ['assistant']"
    = true.
Proof. repeat split; reflexivity. Qed.

(** C7, as the code has it: the lines of a stream are the token lines of
    the events the graph produced, then one last line: the sentinel
    [data: [DONE]] when the graph finished, the error line
    [data: Error: <e>] when it failed with [e].  After the error line the
    stream ends; no sentinel follows it.  The graph is run once. *)
Theorem generate_ends_with_sentinel_or_error (call : GraphCall) (w : World G) :
  ∃ final tr',
    fst (generate svc call w)
      = omap sse_token (fst (fst (graph_astream_events svc call (ext w))))
        ++ [final] ∧
    final = match snd (fst (graph_astream_events svc call (ext w))) with
            | None => DONE
            | Some e => "data: Error: " +:+ exc_str e +:+ LF +:+ LF
            end ∧
    (snd (fst (graph_astream_events svc call (ext w))) = None ↔ final = DONE) ∧
    snd (generate svc call w)
      = mkWorld (snd (graph_astream_events svc call (ext w))) (trace w ++ tr') ∧
    graph_calls tr' = [call].
Proof.
  unfold generate.
  destruct (graph_astream_events svc call (ext w)) as [[events [e |]] g'];
    cbn [fst snd].
  - exists ("data: Error: " +:+ exc_str e +:+ LF +:+ LF),
           [GraphStream call; Log ERROR (TextLog ("Stream error: " +:+ exc_str e))].
    split; [reflexivity | split; [reflexivity | split; [| split]]].
    + split; intros H; discriminate.
    + cbn [trace]. rewrite <- app_assoc. reflexivity.
    + reflexivity.
  - exists DONE, [GraphStream call].
    repeat split; reflexivity.
Qed.

(** C8: whenever [/invoke] answers with a response, the response's thread
    id is the one str(uuid.uuid4()) produced during this request if the
    request supplied none, and the supplied one if the request supplied a
    non-empty one (in which case no id is generated).  It does answer
    whenever the node is registered and the graph run returns. *)
Theorem invoke_thread_id (request : InvokeRequest.t) (w : World G) :
  (∀ resp w',
     invoke svc request w = (Return resp, w') →
     (InvokeRequest.thread_id request = None →
        InvokeResponse.thread_id resp = fst (uuid4 svc (ext w))
        ∧ uuids (trace w') = uuids (trace w) ++ [InvokeResponse.thread_id resp])
     ∧ (∀ t, InvokeRequest.thread_id request = Some t → t ≠ "" →
          InvokeResponse.thread_id resp = t
          ∧ uuids (trace w') = uuids (trace w))) ∧
  (InvokeRequest.node request ∈ NODES →
   ∀ tid w1 result g2,
     thread_id_or_new (E:=HTTPException) svc request w = (Return tid, w1) →
     graph_ainvoke svc (make_call request tid) (ext w1) = (Return result, g2) →
     ∃ resp w',
       invoke svc request w = (Return resp, w')
       ∧ InvokeResponse.thread_id resp = tid).
Proof.
  split.
  - intros resp w' Hinv. unfold invoke in Hinv.
    destruct (bool_decide (InvokeRequest.node request ∈ NODES)); cbn [negb] in Hinv;
      [| discriminate].
    unfold thread_id_or_new in Hinv. run_M. split.
    + intros Hnone. rewrite Hnone in Hinv. cbn [truthy] in Hinv.
      destruct (uuid4 svc (ext w)) as [u g1]. cbn [ext trace fst] in *.
      destruct (graph_ainvoke svc (make_call request u) g1) as [[result | e] g2];
        cbn [ext trace] in Hinv; simplify_eq.
      cbn [InvokeResponse.thread_id trace]. split; [reflexivity |].
      unfold uuids. do 2 rewrite omap_app. cbn [omap list_omap].
      rewrite app_nil_r. reflexivity.
    + intros t Hsome Hne. rewrite Hsome in Hinv. cbn [truthy] in Hinv.
      rewrite (bool_decide_eq_false_2 _ Hne) in Hinv. cbn [ext trace] in Hinv.
      destruct (graph_ainvoke svc (make_call request t) (ext w))
        as [[result | e] g2]; cbn [ext trace] in Hinv; simplify_eq.
      cbn [InvokeResponse.thread_id trace]. split; [reflexivity |].
      unfold uuids. rewrite omap_app. cbn [omap list_omap].
      rewrite app_nil_r. reflexivity.
  - intros Hnode tid w1 result g2 Htid Hgraph. unfold invoke.
    rewrite (bool_decide_eq_true_2 _ Hnode). cbn [negb].
    run_M. rewrite Htid. cbn [ext trace]. rewrite Hgraph.
    eexists _, _. split; reflexivity.
Qed.

End Endpoints.

(** C7 as stated fails: when the graph yields one token and then fails,
    the stream is the token line and the error line; the sentinel is not
    among the lines and the stream does not end with it. *)
Lemma stream_failure_has_no_sentinel :
  fst (Main.generate Runs.failing_services
         Runs.sample_call (mkWorld O []))
    = ["data: 4" +:+ Main.LF +:+ Main.LF;
       "data: Error: connection reset" +:+ Main.LF +:+ Main.LF] ∧
  (Main.DONE ∉
     fst (Main.generate Runs.failing_services Runs.sample_call (mkWorld O []))) ∧
  last (fst (Main.generate Runs.failing_services Runs.sample_call
               (mkWorld O [])))
    ≠ Some Main.DONE.
Proof.
  split; [reflexivity | split].
  - intros H. vm_compute in H.
    repeat (apply elem_of_cons in H as [H | H]; [discriminate |]).
    apply elem_of_nil in H. contradiction.
  - vm_compute. discriminate.
Qed.

(** On success the same stream is the token line and the sentinel. *)
Lemma stream_success_ends_with_sentinel :
  fst (Main.generate Runs.sample_services
         Runs.sample_call (mkWorld O []))
    = ["data: 4" +:+ Main.LF +:+ Main.LF; Main.DONE].
Proof. reflexivity. Qed.

Lemma invoke_thread_id_witness :
  (∀ resp w',
     Main.invoke Runs.sample_services (Runs.ask "assistant" None) (mkWorld O [])
       = (Return resp, w') →
     InvokeResponse.thread_id resp = Runs.sample_uuid) ∧
  (∀ resp w',
     Main.invoke Runs.sample_services (Runs.ask "assistant" (Some "thread-1"))
                 (mkWorld O [])
       = (Return resp, w') →
     InvokeResponse.thread_id resp = "thread-1") ∧
  ∃ resp w',
    Main.invoke Runs.sample_services (Runs.ask "assistant" None) (mkWorld O [])
      = (Return resp, w')
    ∧ InvokeResponse.thread_id resp = Runs.sample_uuid.
Proof.
  split; [| split].
  - intros resp w' Hinv.
    destruct (invoke_thread_id Runs.sample_services (Runs.ask "assistant" None)
                (mkWorld O [])) as [Hid _].
    destruct (Hid resp w' Hinv) as [Hfresh _].
    destruct (Hfresh eq_refl) as [Heq _]. exact Heq.
  - intros resp w' Hinv.
    destruct (invoke_thread_id Runs.sample_services
                (Runs.ask "assistant" (Some "thread-1")) (mkWorld O []))
      as [Hid _].
    destruct (Hid resp w' Hinv) as [_ Hkept].
    destruct (Hkept "thread-1" eq_refl) as [Heq _]; [discriminate | exact Heq].
  - destruct (invoke_thread_id Runs.sample_services (Runs.ask "assistant" None)
                (mkWorld O [])) as [_ Hresp].
    apply (Hresp (list_elem_of_here "assistant" [])
                 Runs.sample_uuid (mkWorld 1%nat [Uuid4 Runs.sample_uuid])
                 Runs.answer_state 2%nat);
      reflexivity.
Defined.

(* ===================================================================== *)
(** ** More on the retry stage                                           *)
(* ===================================================================== *)

Section RetryEdges.
Import Constants Middleware Runs.
Context {S Response : Type}.
Variable settings : Settings.t.
Variable request : ModelRequest.
Variable handler : ModelHandler S Response.

(** X3: with [MAX_RETRIES <= 0] the loop body never runs: the handler is
    not invoked, nothing is slept, and [raise last_error] with
    [last_error = None] raises a [TypeError]. *)
Theorem retry_without_attempts (s : S) (tr : list Event) :
  (Settings.MAX_RETRIES settings ≤ 0)%Z →
  retry_middleware settings request handler (mkWorld s tr)
    = (Raise TypeError_raise_None,
       mkWorld s
         (tr ++ [Log ERROR (RetryExhaustedLog (Settings.MAX_RETRIES settings))])).
Proof.
  intros Hmax. unfold retry_middleware, range.
  replace (Z.to_nat (Settings.MAX_RETRIES settings)) with O by lia.
  cbn [seq]. apply (retry_loop_nil settings request handler None).
Qed.

(** The sum of a list of delays. *)
Lemma backoff_total_le_cap (a n : nat) :
  (fold_right Qplus 0 (map backoff (seq a n))
   <= max_retry_delay middleware_config * inject_Z (Z.of_nat n))%Q.
Proof.
  revert a. induction n as [| n IH]; intros a.
  - cbn. unfold Qle. cbn. lia.
  - cbn [seq map fold_right].
    rewrite Nat2Z.inj_succ, <- Z.add_1_r, inject_Z_plus.
    rewrite Qmult_plus_distr_r, Qplus_comm.
    apply Qplus_le_compat; [apply IH |].
    rewrite Qmult_1_r. apply backoff_le_cap.
Qed.

(** X4: when every attempt fails (with [MAX_RETRIES] between 1 and 1024),
    the stage sleeps after each of them, the last one included, for
    [backoff 0], [backoff 1], ... seconds before it raises; in all it
    sleeps at most [max_retry_delay * MAX_RETRIES] seconds. *)
Theorem retry_exhausted_sleeps_after_every_attempt
    (errs : list Exception) (s s' : S) (tr : list Event) :
  (1 ≤ Settings.MAX_RETRIES settings ≤ Z.of_nat DBL_MAX_EXP)%Z →
  handler_run handler request (Z.to_nat (Settings.MAX_RETRIES settings)) s
    = (map Raise errs, s') →
  ∃ tr',
    snd (retry_middleware settings request handler (mkWorld s tr))
      = mkWorld s' (tr ++ tr') ∧
    sleeps tr'
      = map backoff (seq 0 (Z.to_nat (Settings.MAX_RETRIES settings))) ∧
    length (sleeps tr') = length (model_calls tr') ∧
    (fold_right Qplus 0 (sleeps tr')
     <= max_retry_delay middleware_config
        * inject_Z (Settings.MAX_RETRIES settings))%Q.
Proof.
  intros Hmax Hrun.
  assert (Hlen : length errs = Z.to_nat (Settings.MAX_RETRIES settings)).
  { pose proof (handler_run_length request handler
                  (Z.to_nat (Settings.MAX_RETRIES settings)) s) as Hl.
    rewrite Hrun in Hl. cbn [fst] in Hl. rewrite length_map in Hl. exact Hl. }
  exists (failed_attempts request 0 errs ++
          [Log ERROR (RetryExhaustedLog (Settings.MAX_RETRIES settings))]).
  assert (Hsleeps :
    sleeps (failed_attempts request 0 errs ++
            [Log ERROR (RetryExhaustedLog (Settings.MAX_RETRIES settings))])
    = map backoff (seq 0 (Z.to_nat (Settings.MAX_RETRIES settings)))).
  { unfold sleeps. rewrite omap_app.
    fold (sleeps (failed_attempts request 0 errs)).
    rewrite sleeps_failed_attempts, Hlen. cbn [omap list_omap].
    apply app_nil_r. }
  split; [| split; [exact Hsleeps | split]].
  - unfold retry_middleware, range. rewrite <- Hlen in *.
    rewrite (retry_loop_exhausted settings request handler errs 0 None s s' tr)
      by (lia || assumption).
    reflexivity.
  - rewrite Hsleeps. unfold model_calls. rewrite omap_app.
    fold (model_calls (failed_attempts request 0 errs)).
    rewrite model_calls_failed_attempts. cbn [omap list_omap].
    rewrite app_nil_r, length_map, length_seq, repeat_length. lia.
  - rewrite Hsleeps.
    replace (Settings.MAX_RETRIES settings)
      with (Z.of_nat (Z.to_nat (Settings.MAX_RETRIES settings))) at 2 by lia.
    apply backoff_total_le_cap.
Qed.

End RetryEdges.

(** X5: the delay the stage computes after a failed attempt is
    [2**attempt] seconds for the first four attempts and the cap of 10
    seconds from the fifth on (as long as [2**attempt] converts to a
    float). *)
Theorem retry_delay_schedule (attempt : nat) :
  (attempt < DBL_MAX_EXP)%nat →
  ∃ delay,
    Middleware.retry_delay attempt = Return delay ∧
    (delay == if (attempt <=? 3)%nat
              then inject_Z (2 ^ Z.of_nat attempt)
              else 10)%Q.
Proof.
  intros Hlt. exists (Runs.backoff attempt).
  split; [apply retry_delay_in_range; exact Hlt |].
  unfold Runs.backoff, Constants.retry_base_delay, Constants.max_retry_delay,
    Constants.middleware_config.
  destruct (Nat.leb_spec attempt 3) as [Hsmall | Hbig].
  - rewrite Qmult_1_l. apply Q.min_l.
    unfold Qle. cbn [Qnum Qden inject_Z].
    assert (2 ^ Z.of_nat attempt ≤ 2 ^ 3)%Z
      by (apply Z.pow_le_mono_r; lia).
    lia.
  - rewrite Qmult_1_l. apply Q.min_r.
    unfold Qle. cbn [Qnum Qden inject_Z].
    assert (2 ^ 4 ≤ 2 ^ Z.of_nat attempt)%Z
      by (apply Z.pow_le_mono_r; lia).
    lia.
Qed.

Lemma retry_without_attempts_witness :
  (Settings.MAX_RETRIES (Runs.settings_with_retries 0) ≤ 0)%Z ∧
  Middleware.retry_middleware (Runs.settings_with_retries 0)
      Runs.sample_request Runs.scripted (mkWorld (Runs.outage 0) [])
    = (Raise TypeError_raise_None,
       mkWorld (Runs.outage 0)
         ([] ++ [Log ERROR (RetryExhaustedLog
                   (Settings.MAX_RETRIES (Runs.settings_with_retries 0)))])).
Proof.
  split; [cbn; lia |].
  apply (retry_without_attempts (Runs.settings_with_retries 0)
           Runs.sample_request Runs.scripted (Runs.outage 0) []).
  cbn. lia.
Defined.

Lemma retry_exhausted_sleeps_after_every_attempt_witness :
  (1 ≤ Settings.MAX_RETRIES Settings.defaults ≤ Z.of_nat DBL_MAX_EXP)%Z ∧
  Runs.handler_run Runs.scripted Runs.sample_request
      (Z.to_nat (Settings.MAX_RETRIES Settings.defaults)) Runs.three_failures
    = (map Raise [Runs.timeout_error; Runs.rate_limit_error;
                  Runs.connection_error], []) ∧
  ∃ tr',
    snd (Middleware.retry_middleware Settings.defaults Runs.sample_request
           Runs.scripted (mkWorld Runs.three_failures []))
      = mkWorld [] ([] ++ tr') ∧
    sleeps tr'
      = map Runs.backoff
            (seq 0 (Z.to_nat (Settings.MAX_RETRIES Settings.defaults))) ∧
    length (sleeps tr') = length (model_calls tr') ∧
    (fold_right Qplus 0 (sleeps tr')
     <= Constants.max_retry_delay Constants.middleware_config
        * inject_Z (Settings.MAX_RETRIES Settings.defaults))%Q.
Proof.
  split; [cbn; unfold DBL_MAX_EXP; lia |].
  split; [reflexivity |].
  apply (retry_exhausted_sleeps_after_every_attempt Settings.defaults
           Runs.sample_request Runs.scripted
           [Runs.timeout_error; Runs.rate_limit_error; Runs.connection_error]);
    [cbn; unfold DBL_MAX_EXP; lia | reflexivity].
Defined.

Lemma retry_delay_schedule_witness :
  (4 < DBL_MAX_EXP)%nat ∧
  ∃ delay,
    Middleware.retry_delay 4 = Return delay ∧
    (delay == if (4 <=? 3)%nat then inject_Z (2 ^ Z.of_nat 4) else 10)%Q.
Proof.
  split; [unfold DBL_MAX_EXP; lia |].
  apply (retry_delay_schedule 4). unfold DBL_MAX_EXP. lia.
Defined.

Lemma retry_overflows_on_attempt_1024_witness :
  (Z.of_nat DBL_MAX_EXP
   < Settings.MAX_RETRIES (Runs.settings_with_retries 1026))%Z ∧
  Runs.handler_run Runs.scripted Runs.sample_request DBL_MAX_EXP
      (Runs.outage 1025)
    = (map Raise (repeat Runs.timeout_error 1024), Runs.outage 1) ∧
  Runs.scripted Runs.sample_request (Runs.outage 1)
    = (Raise Runs.timeout_error, Runs.outage 0) ∧
  Middleware.retry_middleware (Runs.settings_with_retries 1026)
      Runs.sample_request Runs.scripted (mkWorld (Runs.outage 1025) [])
    = (Raise OverflowError_int_to_float,
       mkWorld (Runs.outage 0)
         ([] ++ Runs.failed_attempts Runs.sample_request 0
                  (repeat Runs.timeout_error 1024)
             ++ [ModelCall Runs.sample_request])).
Proof.
  split; [cbn; unfold DBL_MAX_EXP; lia |].
  split; [vm_compute; reflexivity |].
  split; [reflexivity |].
  apply (retry_overflows_on_attempt_1024 (Runs.settings_with_retries 1026)
           Runs.sample_request Runs.scripted
           (repeat Runs.timeout_error 1024) Runs.timeout_error
           (Runs.outage 1025) (Runs.outage 1) (Runs.outage 0) []);
    [cbn; unfold DBL_MAX_EXP; lia | vm_compute; reflexivity | reflexivity].
Defined.

(* ===================================================================== *)
(** ** More on the logging and tool-error stages and on the stack        *)
(* ===================================================================== *)

Section StageEdges.
Import Middleware Runs.

(** X6: what the logging stage records.  The request line is written
    only when the state holds a non-empty message list, and shows its last
    message; the response-time line is written only when the handler
    returned: a failing handler leaves no such line behind. *)
Theorem logging_records_request_and_response {S Response : Type}
    (request : ModelRequest) (handler : ModelHandler S Response)
    (s : S) (tr : list Event) :
  trace (snd (logging_middleware request handler (mkWorld s tr)))
    = tr
      ++ match last (default [] (messages (request_state request))) with
         | Some last_msg => [Log INFO (LLMRequestLog last_msg)]
         | None => []
         end
      ++ [ModelCall request]
      ++ (if is_return (fst (handler request s))
          then [Log INFO LLMResponseLog] else []).
Proof.
  unfold logging_middleware, call_model, last_message. run_M.
  cbn [ext trace].
  destruct (messages (request_state request)) as [ms |];
    unfold default; cbn [from_option id];
    [destruct (last ms) as [last_msg |] |];
    cbn [ext trace];
    destruct (handler request s) as [[response | e] s1];
    cbn [fst snd ext trace is_return app];
    repeat rewrite <- app_assoc; try rewrite app_nil_r; reflexivity.
Qed.

(** X7: a tool handler that returns is left alone by the tool-error
    stage, on the sync and on the async path: its result comes back as it
    is, the handler ran once, and nothing is logged. *)
Theorem tool_success_is_untouched {S : Type}
    (request : ToolCallRequest) (handler : ToolHandler S)
    (result : ToolResult) (s s1 : S) (tr : list Event) :
  handler request s = (Return result, s1) →
  wrap_tool_call request handler (mkWorld s tr)
    = (Return result, mkWorld s1 (tr ++ [ToolCall request])) ∧
  awrap_tool_call request handler (mkWorld s tr)
    = (Return result, mkWorld s1 (tr ++ [ToolCall request])).
Proof.
  intros Hret.
  unfold wrap_tool_call, awrap_tool_call, _handle, _ahandle, call_tool.
  unfold mbind, mret, M_bind, M_ret, bind, ret, try, external.
  cbn [ext trace]. rewrite Hret. split; reflexivity.
Qed.

(** X8: a tool call without an ["id"] key defeats the isolation: when its
    handler raises, building the error message indexes
    [request.tool_call["id"]], and the stage raises that [KeyError] in
    place of the tool's failure, after logging the error text. *)
Theorem tool_error_without_id_raises_KeyError {S : Type}
    (request : ToolCallRequest) (handler : ToolHandler S)
    (e : Exception) (s s1 : S) (tr : list Event) :
  handler request s = (Raise e, s1) →
  tool_call request !! "id" = None →
  ∃ text,
    wrap_tool_call request handler (mkWorld s tr)
      = (Raise (KeyError "id"),
         mkWorld s1 (tr ++ [ToolCall request; Log ERROR (TextLog text)])) ∧
    awrap_tool_call request handler (mkWorld s tr)
      = (Raise (KeyError "id"),
         mkWorld s1 (tr ++ [ToolCall request; Log ERROR (TextLog text)])).
Proof.
  intros Hraise Hid. eexists.
  unfold wrap_tool_call, awrap_tool_call, _handle, _ahandle, call_tool,
    _error_message.
  unfold mbind, mret, M_bind, M_ret, bind, ret, raise, try, external, logger,
    emit.
  cbn [ext trace]. rewrite Hraise. cbn [ext trace]. rewrite Hid.
  rewrite <- app_assoc. split; reflexivity.
Qed.

(** X9: the chain is never empty and never repeats a stage: it has one
    stage for tool errors and one more for each flag that is set. *)
Theorem default_middleware_size (settings : Settings.t) :
  length (build_middleware settings)
    = (1 + (if Settings.ENABLE_SUMMARIZATION settings then 1 else 0)
         + (if Settings.ENABLE_LOGGING settings then 1 else 0)
         + (if Settings.ENABLE_RETRY settings then 1 else 0))%nat ∧
  NoDup (build_middleware settings).
Proof.
  destruct settings as [env retry logging summarization max].
  unfold build_middleware.
  cbn [Settings.ENABLE_SUMMARIZATION Settings.ENABLE_LOGGING
       Settings.ENABLE_RETRY].
  destruct summarization, logging, retry; cbn [app length];
    (split; [reflexivity |]);
    repeat (apply NoDup_cons_2;
            [intros Hin;
             repeat (apply elem_of_cons in Hin as [Hin | Hin]; [discriminate |]);
             apply elem_of_nil in Hin; contradiction |]);
    apply NoDup_nil_2.
Qed.

End StageEdges.

Lemma tool_success_is_untouched_witness :
  Runs.scripted Runs.sample_tool_request
      [Return (ResultMessage (mkToolMessage "4" "call_7"))]
    = (Return (ResultMessage (mkToolMessage "4" "call_7")), []) ∧
  Middleware.wrap_tool_call Runs.sample_tool_request Runs.scripted
      (mkWorld [Return (ResultMessage (mkToolMessage "4" "call_7"))] [])
    = (Return (ResultMessage (mkToolMessage "4" "call_7")),
       mkWorld [] ([] ++ [ToolCall Runs.sample_tool_request])) ∧
  Middleware.awrap_tool_call Runs.sample_tool_request Runs.scripted
      (mkWorld [Return (ResultMessage (mkToolMessage "4" "call_7"))] [])
    = (Return (ResultMessage (mkToolMessage "4" "call_7")),
       mkWorld [] ([] ++ [ToolCall Runs.sample_tool_request])).
Proof.
  split; [reflexivity |].
  apply (tool_success_is_untouched Runs.sample_tool_request Runs.scripted
           (ResultMessage (mkToolMessage "4" "call_7"))
           [Return (ResultMessage (mkToolMessage "4" "call_7"))] [] []).
  reflexivity.
Defined.

Lemma tool_error_without_id_raises_KeyError_witness :
  Runs.scripted Samples.tool_request_without_id Runs.tool_fails
    = (Raise Runs.zero_division_error, []) ∧
  tool_call Samples.tool_request_without_id !! "id" = None ∧
  ∃ text,
    Middleware.wrap_tool_call Samples.tool_request_without_id Runs.scripted
        (mkWorld Runs.tool_fails [])
      = (Raise (KeyError "id"),
         mkWorld [] ([] ++ [ToolCall Samples.tool_request_without_id;
                            Log ERROR (TextLog text)])) ∧
    Middleware.awrap_tool_call Samples.tool_request_without_id Runs.scripted
        (mkWorld Runs.tool_fails [])
      = (Raise (KeyError "id"),
         mkWorld [] ([] ++ [ToolCall Samples.tool_request_without_id;
                            Log ERROR (TextLog text)])).
Proof.
  split; [reflexivity |]. split; [vm_compute; reflexivity |].
  apply (tool_error_without_id_raises_KeyError
           Samples.tool_request_without_id Runs.scripted
           Runs.zero_division_error Runs.tool_fails [] []);
    [reflexivity | vm_compute; reflexivity].
Defined.

(* ===================================================================== *)
(** ** The tools                                                         *)
(* ===================================================================== *)

Section ToolProperties.
Import Tools RuntimeTools Runs.

(** X10: [eval] only ever sees strings made of digits, [+ - * / . ( )]
    and spaces: two Pythons that agree on such strings (and on [str])
    make [calculate] answer alike on every input, whatever they would do
    with anything else. *)
Theorem calculate_consults_eval_on_arithmetic_only {V : Type}
    (py1 py2 : Builtins V) :
  (∀ expression,
     (∀ c, c ∈ list_ascii_of_string expression → arithmetic_char c = true) →
     py_eval py1 expression = py_eval py2 expression) →
  (∀ v, py_str py1 v = py_str py2 v) →
  ∀ expression, calculate py1 expression = calculate py2 expression.
Proof.
  intros Heval Hstr expression. unfold calculate.
  destruct (all_allowed expression) eqn:Hall; cbn [negb]; [| reflexivity].
  rewrite (Heval expression (proj1 (all_allowed_spec expression) Hall)).
  destruct (py_eval py2 expression) as [v | e]; [| reflexivity].
  rewrite Hstr. reflexivity.
Qed.


(** X12: a preference that the store accepts can be read back under the
    namespace [("preferences", user_id)] and the given key, wrapped as
    [{"value": value}]; every other entry of the store, in particular
    every preference of every other user, is as it was. *)
Theorem save_preference_round_trip {T : Type} `{StoreLaws T}
    (key value : string) (runtime : ToolRuntime.t T)
    (st st' : T) (command : Command) :
  ToolRuntime.store runtime = Some st →
  save_preference key value runtime = Return (Some st', command) →
  store_get ["preferences";
             Hooks.user_id_or_anonymous (ToolRuntime.context runtime)]
            key st'
    = Some {[ "value" := value ]} ∧
  (∀ ns' key',
     (ns', key')
       ≠ (["preferences";
           Hooks.user_id_or_anonymous (ToolRuntime.context runtime)], key) →
     store_get ns' key' st' = store_get ns' key' st) ∧
  (∀ other key',
     other ≠ Hooks.user_id_or_anonymous (ToolRuntime.context runtime) →
     store_get ["preferences"; other] key' st'
       = store_get ["preferences"; other] key' st).
Proof.
  intros Hstore Hsave. unfold save_preference in Hsave. rewrite Hstore in Hsave.
  unfold Hooks.user_id_or_anonymous.
  destruct (store_put _ key {[ "value" := value ]} st) as [st1 | e] eqn:Hput;
    [| discriminate].
  simplify_eq.
  split; [| split].
  - eapply get_put. exact Hput.
  - intros ns' key' Hne. eapply get_put_other; [exact Hput | exact Hne].
  - intros other key' Hne. eapply get_put_other; [exact Hput |].
    intros Heq. apply Hne. congruence.
Qed.

(** X13: the [Command] does not depend on the store.  Without a store
    nothing is written, yet the tool returns the same "Saved preference
    ..." message, addressed to the tool call, that it returns when a store
    took the value; a put the store refuses raises out of the tool. *)
Theorem save_preference_command {T : Type} `{Store T}
    (key value : string) (context : option RequestContext) (id : string) :
  ∃ d,
    save_preference key value (ToolRuntime.mk context None id)
      = Return (None, {| update_messages := [MessageDict d] |}) ∧
    d !! "role" = Some "tool" ∧
    d !! "tool_call_id" = Some id ∧
    d !! "content"
      = Some ("Saved preference '" +:+ key +:+ "' = '" +:+ value
              +:+ "' for user " +:+ Hooks.user_id_or_anonymous context) ∧
    (∀ st st' command,
       save_preference key value (ToolRuntime.mk context (Some st) id)
         = Return (st', command) →
       command = {| update_messages := [MessageDict d] |}) ∧
    (∀ st e,
       store_put ["preferences"; Hooks.user_id_or_anonymous context] key
                 {[ "value" := value ]} st = Raise e →
       save_preference key value (ToolRuntime.mk context (Some st) id)
         = Raise e).
Proof.
  eexists. split; [reflexivity |].
  split; [by simplify_map_eq |].
  split; [by simplify_map_eq |].
  split; [by simplify_map_eq |].
  split.
  - intros st st' command Hsave. unfold save_preference in Hsave.
    cbn [ToolRuntime.store ToolRuntime.context ToolRuntime.tool_call_id] in Hsave.
    destruct (store_put _ key {[ "value" := value ]} st); [| discriminate].
    simplify_eq. reflexivity.
  - intros st e Hput. unfold save_preference, Hooks.user_id_or_anonymous in *.
    cbn [ToolRuntime.store ToolRuntime.context]. rewrite Hput. reflexivity.
Qed.

End ToolProperties.

Lemma DictStore_laws : StoreLaws Samples.DictStore.
Proof.
  split.
  - intros ns key value st st' Hput. cbn in *. simplify_eq.
    apply lookup_insert_eq.
  - intros ns key value st st' ns' key' Hput Hne. cbn in *. simplify_eq.
    apply lookup_insert_ne. congruence.
Qed.

Lemma calculate_consults_eval_on_arithmetic_only_witness :
  (∀ expression,
     (∀ c, c ∈ list_ascii_of_string expression →
           Runs.arithmetic_char c = true) →
     Tools.py_eval Runs.toy_python expression
       = Tools.py_eval Samples.shell_python expression) ∧
  (∀ v, Tools.py_str Runs.toy_python v = Tools.py_str Samples.shell_python v) ∧
  Tools.calculate Runs.toy_python "exit()"
    = Tools.calculate Samples.shell_python "exit()".
Proof.
  assert (Heval : ∀ expression,
     (∀ c, c ∈ list_ascii_of_string expression →
           Runs.arithmetic_char c = true) →
     Tools.py_eval Runs.toy_python expression
       = Tools.py_eval Samples.shell_python expression).
  { intros expression Hok. unfold Samples.shell_python. cbn [Tools.py_eval].
    destruct (bool_decide_reflect (expression = "exit()")) as [-> | _];
      [| reflexivity].
    specialize (Hok "e"%char (list_elem_of_here _ _)). discriminate. }
  split; [exact Heval |]. split; [reflexivity |].
  apply (calculate_consults_eval_on_arithmetic_only Runs.toy_python
           Samples.shell_python Heval (λ v, eq_refl)).
Defined.

Lemma save_preference_round_trip_witness :
  ToolRuntime.store Samples.alice_runtime = Some ∅ ∧
  (∃ st' command,
     RuntimeTools.save_preference "theme" "dark" Samples.alice_runtime
       = Return (Some st', command) ∧
     store_get ["preferences"; "alice"] "theme" st'
       = Some {[ "value" := "dark" ]}).
Proof.
  split; [reflexivity |].
  eexists _, _. split; [reflexivity |].
  apply (@save_preference_round_trip Samples.DictStore _ DictStore_laws
           "theme" "dark" Samples.alice_runtime ∅ _ _ eq_refl eq_refl).
Defined.

(* ===================================================================== *)
(** ** The node and the graph builder                                    *)
(* ===================================================================== *)

Section NodeAndGraph.
Import GraphBuilder Runs.

(** X14: the assistant node is a pass-through around the agent.  The
    agent is built with the default middleware chain and all the tools,
    and with the prompt file's text (the empty prompt, after a warning,
    when the file is missing); it runs once, on the node's state and on
    the runtime's context or a default one; its outcome and the state it
    leaves are the node's.  The node itself only logs. *)
Theorem node_assistant_runs_the_agent {A : Type}
    (settings : Settings.t) (read_text : string → option string)
    (ainvoke : Nodes.AgentRun A) (state : State)
    (runtime_context : option RequestContext) (a : A) (tr : list Event) :
  ∃ logs,
    Nodes.assistant settings read_text ainvoke state runtime_context
                    (mkWorld a tr)
      = (fst (ainvoke
                (Agents.assistant settings
                   (default "" (read_text "prompts/assistant.md")))
                state (default (RequestContext_new "" "") runtime_context) a),
         mkWorld
           (snd (ainvoke
                   (Agents.assistant settings
                      (default "" (read_text "prompts/assistant.md")))
                   state (default (RequestContext_new "" "") runtime_context)
                   a))
           (tr ++ logs)) ∧
    Forall (λ ev, ∃ level text, ev = Log level (TextLog text)) logs ∧
    (read_text "prompts/assistant.md" = None ↔
     Log WARNING (TextLog "Prompt not found: assistant.md") ∈ logs).
Proof.
  unfold Nodes.assistant, Nodes.load_prompt, Nodes.call_agent,
    Nodes.context_or_default.
  run_M. cbn [ext trace].
  change ("prompts/" +:+ "assistant" +:+ ".md") with "prompts/assistant.md".
  destruct (read_text "prompts/assistant.md") as [text |]; cbn [default ext trace].
  - destruct (ainvoke _ state _ a) as [o a']. cbn [fst snd].
    eexists. split; [reflexivity | split].
    + apply Forall_cons_2; [eauto | apply Forall_nil_2].
    + split; [discriminate |]. intros Hin.
      apply elem_of_cons in Hin as [Hin | Hin].
      * unfold Nodes.user_or_anonymous in Hin.
        destruct (bool_decide _); discriminate.
      * apply elem_of_nil in Hin. contradiction.
  - destruct (ainvoke _ state _ a) as [o a']. cbn [fst snd].
    eexists. split; [rewrite <- app_assoc; reflexivity | split].
    + repeat (apply Forall_cons_2; [eauto |]). apply Forall_nil_2.
    + split; [intros _ | reflexivity].
      apply list_elem_of_further, list_elem_of_here.
Qed.

(** The dictionary [{n: n for n in NODES}] maps exactly the listed names,
    each to itself. *)
Lemma path_map_lookup (names : list string) (n m : string) :
  path_map names !! n = Some m ↔ n ∈ names ∧ m = n.
Proof.
  unfold path_map. rewrite <- (elem_of_reverse n names).
  induction (reverse names) as [| x l IH]; cbn [map list_to_map foldr].
  - rewrite lookup_empty. split; [discriminate |].
    intros [Hin _]. apply elem_of_nil in Hin. contradiction.
  - cbn [fst snd]. destruct (decide (x = n)) as [-> | Hne].
    + rewrite lookup_insert_eq. split.
      * intros Heq. simplify_eq. split; [apply list_elem_of_here | reflexivity].
      * intros [_ ->]. reflexivity.
    + rewrite lookup_insert_ne by exact Hne. rewrite IH. split.
      * intros [Hin ->]. split; [apply list_elem_of_further; exact Hin | reflexivity].
      * intros [Hin ->]. split; [| reflexivity].
        apply elem_of_cons in Hin as [-> | Hin]; [contradiction | exact Hin].
Qed.

Lemma register_nodes_ok (attrs names : list string) :
  Forall (λ n, n ∈ attrs) names →
  register_nodes attrs names = Return (map (λ n, add_node n n) names).
Proof.
  induction 1 as [| n names Hn _ IH]; [reflexivity |].
  cbn [register_nodes map]. unfold getattr.
  rewrite (bool_decide_eq_true_2 _ Hn), IH. reflexivity.
Qed.

Lemma register_nodes_first_missing (attrs listed : list string)
    (n : string) (rest : list string) :
  Forall (λ m, m ∈ attrs) listed →
  n ∉ attrs →
  register_nodes attrs (listed ++ n :: rest)
    = Raise (mkException "AttributeError"
               ("'Nodes' object has no attribute '" +:+ n +:+ "'")).
Proof.
  intros Hlisted Hn.
  induction Hlisted as [| m listed Hm _ IH]; cbn [app register_nodes];
    unfold getattr.
  - rewrite (bool_decide_eq_false_2 _ Hn). reflexivity.
  - rewrite (bool_decide_eq_true_2 _ Hm), IH. reflexivity.
Qed.

(** X15: [build_graph] gets through its own code exactly when every
    listed node name is an attribute of the [nodes] object; otherwise it
    raises the [AttributeError] of [getattr] for the first listed name
    that is not one: "'Nodes' object has no attribute '<name>'". *)
Theorem build_graph_needs_an_attribute_per_node (attrs names : list string) :
  (is_return (build_graph_with attrs names) = true
   ↔ Forall (λ n, n ∈ attrs) names) ∧
  (∀ listed n rest,
     names = listed ++ n :: rest →
     Forall (λ m, m ∈ attrs) listed →
     n ∉ attrs →
     build_graph_with attrs names
       = Raise (mkException "AttributeError"
                  ("'Nodes' object has no attribute '" +:+ n +:+ "'"))).
Proof.
  unfold build_graph_with. split; [split |].
  - induction names as [| n names IH]; intros Hret; [apply Forall_nil_2 |].
    cbn [register_nodes] in Hret. unfold getattr in Hret.
    destruct (bool_decide_reflect (n ∈ attrs)) as [Hn | Hn];
      [| discriminate].
    apply Forall_cons_2; [exact Hn |]. apply IH.
    destruct (register_nodes attrs names); [reflexivity | discriminate].
  - intros Hall. rewrite (register_nodes_ok attrs names Hall). reflexivity.
  - intros listed n rest -> Hlisted Hn.
    rewrite (register_nodes_first_missing attrs listed n rest Hlisted Hn).
    reflexivity.
Qed.


(** X17: routing meets the registry.  A state whose routing field holds
    a listed name is sent by [route_to_node] to a key of the path map,
    which leads to the node of that name; a state without the field is
    sent to "assistant", which the node list of the sources registers; a
    routing field holding an unlisted name (the empty string, say) is
    sent to a key the path map does not have. *)
Theorem routed_state_finds_its_node (names : list string) (state : State)
    (name : string) :
  node state = Some name →
  (name ∈ names →
   path_map names !! Graph.route_to_node state = Some name) ∧
  (name ∉ names →
   path_map names !! Graph.route_to_node state = None) ∧
  (∀ ms out,
     path_map Constants.NODES
       !! Graph.route_to_node {| messages := ms; node := None;
                                 structured_response := out |}
     = Some "assistant").
Proof.
  intros Hnode. unfold Graph.route_to_node. rewrite Hnode.
  unfold default. cbn [from_option id node].
  split; [| split].
  - intros Hin. apply path_map_lookup. split; [exact Hin | reflexivity].
  - intros Hnot. destruct (path_map names !! name) as [m |] eqn:Hlook;
      [| reflexivity].
    apply path_map_lookup in Hlook as [Hin _]. contradiction.
  - intros ms out. apply path_map_lookup.
    split; [apply list_elem_of_here | reflexivity].
Qed.

End NodeAndGraph.

Lemma build_graph_needs_an_attribute_per_node_witness :
  GraphBuilder.build_graph_with ["assistant"] ["assistant"; "researcher"; "x"]
    = Raise (mkException "AttributeError"
               "'Nodes' object has no attribute 'researcher'").
Proof.
  destruct (build_graph_needs_an_attribute_per_node
              ["assistant"] ["assistant"; "researcher"; "x"]) as [_ Hfirst].
  apply (Hfirst ["assistant"] "researcher" ["x"] eq_refl).
  - apply Forall_cons_2; [apply list_elem_of_here | apply Forall_nil_2].
  - intros Hin. apply elem_of_cons in Hin as [Heq | Hin]; [discriminate |].
    apply elem_of_nil in Hin. contradiction.
Defined.


Lemma routed_state_finds_its_node_witness :
  node Runs.answer_state = Some "assistant" ∧
  ("assistant" ∈ Constants.NODES →
   GraphBuilder.path_map Constants.NODES
     !! Graph.route_to_node Runs.answer_state = Some "assistant").
Proof.
  split; [reflexivity |].
  apply (routed_state_finds_its_node Constants.NODES Runs.answer_state
           "assistant" eq_refl).
Defined.

(* ===================================================================== *)
(** ** More on the endpoints                                             *)
(* ===================================================================== *)

Section EndpointEdges.
Import Constants Main Runs.
Context {G : Type}.
Variable svc : Services G.

Lemma thread_id_or_new_returns {E : Type} (request : InvokeRequest.t)
    (w : World G) :
  ∃ tid w1, thread_id_or_new (E:=E) svc request w = (Return tid, w1).
Proof.
  unfold thread_id_or_new.
  destruct (truthy (InvokeRequest.thread_id request)) as [t |].
  - eexists _, _. reflexivity.
  - destruct (uuid4 svc (ext w)) as [u g1]. eexists _, _. reflexivity.
Qed.

(** X18: [/invoke] and [/stream] answer 400 exactly for the nodes that
    [GET /nodes] does not list, and in that case leave the world as it
    was: no thread id is drawn, the graph is not run, nothing is logged. *)
Theorem bad_request_iff_unlisted_node (request : InvokeRequest.t)
    (w : World G) :
  ((∃ text, fst (invoke svc request w) = Raise (mkHTTPException 400 text))
   ↔ InvokeRequest.node request ∉ Info.list_nodes) ∧
  ((∃ text, fst (stream svc request w) = Raise (mkHTTPException 400 text))
   ↔ InvokeRequest.node request ∉ Info.list_nodes) ∧
  (InvokeRequest.node request ∉ Info.list_nodes →
   snd (invoke svc request w) = w ∧ snd (stream svc request w) = w).
Proof.
  unfold Info.list_nodes, invoke, stream.
  destruct (bool_decide_reflect (InvokeRequest.node request ∈ NODES))
    as [Hin | Hnot]; cbn [negb].
  - split; [| split].
    + split; [| intros Hnot; contradiction].
      intros [text Hbad]. exfalso. revert Hbad. run_M.
      destruct (thread_id_or_new_returns (E:=HTTPException) request w)
        as (tid & w1 & ->).
      destruct (graph_ainvoke svc (make_call request tid) (ext w1))
        as [[result | e] g2]; cbn [fst]; discriminate.
    + split; [| intros Hnot; contradiction].
      intros [text Hbad]. exfalso. revert Hbad. run_M.
      destruct (thread_id_or_new_returns (E:=HTTPException) request w)
        as (tid & w1 & ->).
      cbn [fst]. discriminate.
    + intros Hnot. contradiction.
  - split; [| split].
    + split; [intros _; exact Hnot | intros _; eexists; reflexivity].
    + split; [intros _; exact Hnot | intros _; eexists; reflexivity].
    + intros _. split; reflexivity.
Qed.

(** X19: when the graph run fails with [e], [/invoke] answers 500 with
    [str(e)] as detail, after one graph run and one error record. *)
Theorem invoke_graph_failure_is_500 (request : InvokeRequest.t)
    (w w1 : World G) (tid : string) (e : Exception) (g2 : G) :
  InvokeRequest.node request ∈ NODES →
  thread_id_or_new (E:=HTTPException) svc request w = (Return tid, w1) →
  graph_ainvoke svc (make_call request tid) (ext w1) = (Raise e, g2) →
  invoke svc request w
    = (Raise (mkHTTPException 500 (exc_str e)),
       mkWorld g2
         (trace w1 ++ [GraphInvoke (make_call request tid);
                       Log ERROR (TextLog ("Invoke error: " +:+ exc_str e))])).
Proof.
  intros Hnode Htid Hgraph. unfold invoke.
  rewrite (bool_decide_eq_true_2 _ Hnode). cbn [negb].
  run_M. rewrite Htid. cbn [ext trace]. rewrite Hgraph. cbn [ext trace].
  rewrite <- app_assoc. reflexivity.
Qed.

(** X20: when the graph run returns, [/invoke] answers with the thread
    id, the request's node, the content of the last message of the result
    and its structured response, after one graph run, whose input carries
    the request's message and node and a context whose session is the
    thread id. *)
Theorem invoke_answers_with_last_message (request : InvokeRequest.t)
    (w w1 : World G) (tid : string) (result : State) (g2 : G) :
  InvokeRequest.node request ∈ NODES →
  thread_id_or_new (E:=HTTPException) svc request w = (Return tid, w1) →
  graph_ainvoke svc (make_call request tid) (ext w1) = (Return result, g2) →
  invoke svc request w
    = (Return (InvokeResponse.mk tid (InvokeRequest.node request)
                 (response_text result) (Schema.structured_response result)),
       mkWorld g2 (trace w1 ++ [GraphInvoke (make_call request tid)])) ∧
  gc_message (make_call request tid) = InvokeRequest.message request ∧
  gc_node (make_call request tid) = InvokeRequest.node request ∧
  gc_thread_id (make_call request tid) = tid ∧
  session_id (gc_context (make_call request tid)) = tid.
Proof.
  intros Hnode Htid Hgraph. unfold invoke.
  rewrite (bool_decide_eq_true_2 _ Hnode). cbn [negb].
  run_M. rewrite Htid. cbn [ext trace]. rewrite Hgraph.
  repeat split; reflexivity.
Qed.

(** X21: the response text is the content of the last message, whether
    the message is an object or a dict; a dict without ["content"], an
    empty message list and a result without ["messages"] all give the
    empty text. *)
Theorem response_text_is_last_content (ms : list Message)
    (name : option string) (out : option Output) :
  (∀ type content,
     response_text {| messages := Some (ms ++ [MessageObj type content]);
                      node := name; structured_response := out |}
     = content) ∧
  (∀ d,
     response_text {| messages := Some (ms ++ [MessageDict d]);
                      node := name; structured_response := out |}
     = default "" (d !! "content")) ∧
  response_text {| messages := Some [];
                   node := name; structured_response := out |} = "" ∧
  response_text {| messages := None;
                   node := name; structured_response := out |} = "".
Proof.
  unfold response_text. cbn [messages]. unfold default at 1 3.
  cbn [from_option id].
  split; [| split; [| split]]; intros; try rewrite last_snoc; reflexivity.
Qed.

(** X22: an empty thread id or user id is treated like a missing one, by
    both endpoints. *)
Theorem empty_ids_count_as_missing (message node : string)
    (thread_id user_id : option string) (w : World G) :
  invoke svc (InvokeRequest.mk message node (Some "") user_id) w
    = invoke svc (InvokeRequest.mk message node None user_id) w ∧
  invoke svc (InvokeRequest.mk message node thread_id (Some "")) w
    = invoke svc (InvokeRequest.mk message node thread_id None) w ∧
  stream svc (InvokeRequest.mk message node (Some "") user_id) w
    = stream svc (InvokeRequest.mk message node None user_id) w ∧
  stream svc (InvokeRequest.mk message node thread_id (Some "")) w
    = stream svc (InvokeRequest.mk message node thread_id None) w.
Proof. repeat split; reflexivity. Qed.

(** X23: [/stream] itself does not run the graph.  For a registered node
    it returns an event-stream response whose headers name the thread id
    and the node; each time the body is consumed the graph runs once, on
    the request's message and node and under the thread id of the
    header. *)
Theorem stream_defers_the_graph (request : InvokeRequest.t)
    (w w1 : World G) (tid : string) :
  InvokeRequest.node request ∈ NODES →
  thread_id_or_new (E:=HTTPException) svc request w = (Return tid, w1) →
  ∃ response,
    stream svc request w = (Return response, w1) ∧
    media_type response = "text/event-stream" ∧
    headers response
      = [("X-Thread-ID", tid); ("X-Node", InvokeRequest.node request)] ∧
    graph_calls (trace w1) = graph_calls (trace w) ∧
    (∀ w2,
       graph_calls (trace (snd (body response w2)))
         = graph_calls (trace w2) ++ [make_call request tid]) ∧
    gc_thread_id (make_call request tid) = tid.
Proof.
  intros Hnode Htid. unfold stream.
  rewrite (bool_decide_eq_true_2 _ Hnode). cbn [negb].
  run_M. rewrite Htid.
  eexists. split; [reflexivity |].
  split; [reflexivity | split; [reflexivity | split; [| split]]].
  - unfold thread_id_or_new in Htid.
    destruct (truthy (InvokeRequest.thread_id request)) as [t |].
    + unfold mret, M_ret, ret in Htid. simplify_eq. reflexivity.
    + destruct (uuid4 svc (ext w)) as [u g1]. simplify_eq.
      cbn [trace]. unfold graph_calls. rewrite omap_app.
      cbn [omap list_omap]. apply app_nil_r.
  - intros w2. cbn [body]. unfold generate.
    destruct (graph_astream_events svc (make_call request tid) (ext w2))
      as [[events [e |]] g']; cbn [snd trace];
      unfold graph_calls; repeat rewrite omap_app; cbn [omap list_omap];
      try rewrite app_nil_r; reflexivity.
  - reflexivity.
Qed.

Lemma sse_token_is_framed (event : StreamEvent) (line : string) :
  sse_token event = Some line →
  ∃ payload, line = "data: " +:+ payload +:+ LF +:+ LF.
Proof.
  unfold sse_token.
  destruct (bool_decide (ev_event event = Some "on_chat_model_stream"));
    [| discriminate].
  destruct (ev_chunk event) as [[content |] |]; try discriminate.
  destruct (bool_decide (content = "")); [discriminate |].
  intros Heq. simplify_eq. exists content. reflexivity.
Qed.

Lemma sse_tokens_are_framed (events : list StreamEvent) :
  Forall (λ line, ∃ payload, line = "data: " +:+ payload +:+ LF +:+ LF)
         (omap sse_token events) ∧
  (length (omap sse_token events) ≤ length events)%nat.
Proof.
  induction events as [| event events [IHframed IHlen]];
    [split; [apply Forall_nil_2 | reflexivity] |].
  cbn [omap list_omap].
  destruct (sse_token event) as [line |] eqn:Htoken; cbn [length].
  - split; [| lia].
    apply Forall_cons_2; [| exact IHframed].
    apply (sse_token_is_framed event line Htoken).
  - split; [exact IHframed | lia].
Qed.

(** X24: every line of a stream is an SSE data event, [data: <payload>]
    followed by two line feeds; there is always at least one line, and at
    most one per event of the graph plus the closing line. *)
Theorem stream_lines_are_data_events (call : GraphCall) (w : World G) :
  Forall (λ line, ∃ payload, line = "data: " +:+ payload +:+ LF +:+ LF)
         (fst (generate svc call w)) ∧
  (1 ≤ length (fst (generate svc call w))
     ≤ Datatypes.S
         (length (fst (fst (graph_astream_events svc call (ext w))))))%nat.
Proof.
  unfold generate.
  destruct (graph_astream_events svc call (ext w)) as [[events failure] g'].
  destruct (sse_tokens_are_framed events) as [Hframed Hlen].
  cbn [fst snd].
  destruct failure as [e |]; cbn [fst]; rewrite length_app; cbn [length];
    (split; [| lia]); apply Forall_app; (split; [exact Hframed |]);
    apply Forall_cons_2; try apply Forall_nil_2.
  - exists ("Error: " +:+ exc_str e). reflexivity.
  - exists "[DONE]". reflexivity.
Qed.

End EndpointEdges.

Lemma invoke_graph_failure_is_500_witness :
  "assistant" ∈ Constants.NODES ∧
  Main.thread_id_or_new (E:=Main.HTTPException) Runs.failing_services
      (Runs.ask "assistant" (Some "thread-1")) (mkWorld O [])
    = (Return "thread-1", mkWorld O []) ∧
  Main.invoke Runs.failing_services (Runs.ask "assistant" (Some "thread-1"))
              (mkWorld O [])
    = (Raise (Main.mkHTTPException 500 (exc_str Runs.connection_error)),
       mkWorld 1%nat
         ([] ++ [GraphInvoke (Main.make_call
                                (Runs.ask "assistant" (Some "thread-1"))
                                "thread-1");
                 Log ERROR (TextLog ("Invoke error: "
                                     +:+ exc_str Runs.connection_error))])).
Proof.
  split; [apply list_elem_of_here |]. split; [reflexivity |].
  apply (invoke_graph_failure_is_500 Runs.failing_services
           (Runs.ask "assistant" (Some "thread-1")) (mkWorld O [])
           (mkWorld O []) "thread-1" Runs.connection_error 1%nat);
    [apply list_elem_of_here | reflexivity | reflexivity].
Defined.

Lemma invoke_answers_with_last_message_witness :
  "assistant" ∈ Constants.NODES ∧
  Main.graph_ainvoke Runs.sample_services
      (Main.make_call (Runs.ask "assistant" (Some "thread-1")) "thread-1") O
    = (Return Runs.answer_state, 1%nat) ∧
  fst (Main.invoke Runs.sample_services
         (Runs.ask "assistant" (Some "thread-1")) (mkWorld O []))
    = Return (InvokeResponse.mk "thread-1" "assistant" "4" None).
Proof.
  split; [apply list_elem_of_here |]. split; [reflexivity |].
  destruct (invoke_answers_with_last_message Runs.sample_services
              (Runs.ask "assistant" (Some "thread-1")) (mkWorld O [])
              (mkWorld O []) "thread-1" Runs.answer_state 1%nat
              (list_elem_of_here _ _) eq_refl eq_refl) as [Hinv _].
  rewrite Hinv. reflexivity.
Defined.

Lemma stream_defers_the_graph_witness :
  "assistant" ∈ Constants.NODES ∧
  ∃ response,
    Main.stream Runs.sample_services (Runs.ask "assistant" None) (mkWorld O [])
      = (Return response, mkWorld 1%nat [Uuid4 Runs.sample_uuid]) ∧
    Main.headers response
      = [("X-Thread-ID", Runs.sample_uuid); ("X-Node", "assistant")] ∧
    graph_calls (trace (snd (Main.body response (mkWorld 1%nat []))))
      = [Runs.sample_call].
Proof.
  split; [apply list_elem_of_here |].
  destruct (stream_defers_the_graph Runs.sample_services
              (Runs.ask "assistant" None) (mkWorld O [])
              (mkWorld 1%nat [Uuid4 Runs.sample_uuid]) Runs.sample_uuid
              (list_elem_of_here _ _) eq_refl)
    as (response & Hstream & _ & Hheaders & _ & Hbody & _).
  exists response. split; [exact Hstream | split; [exact Hheaders |]].
  apply (Hbody (mkWorld 1%nat [])).
Defined.
